(** * A model of [cmd.py], the release script of the addon repository.

    The script is shallowly embedded: strings are [string] (or [list ascii]
    where they are taken apart character by character), XML documents are
    trees, the external commands (git, shutil, zipfile, hashlib, the lxml
    serializer) are outcomes supplied by an environment record or a Section
    variable, and the effects on the working tree go through a small
    state-and-error monad. Text is modelled as ASCII. *)

From Stdlib Require Import String Ascii List ZArith Lia Bool DecimalNat.
Import ListNotations.
Open Scope string_scope.
Open Scope list_scope.
Set Warnings "-register-all".


(* ================================================================== *)
(** ** Character classes and small Python string primitives *)

Module Py.

Definition is_digit (c : ascii) : bool :=
  (48 <=? nat_of_ascii c)%nat && (nat_of_ascii c <=? 57)%nat.

Definition digit_val (c : ascii) : Z := Z.of_nat (nat_of_ascii c - 48).

(** [str.isspace] on ASCII: tab, LF, VT, FF, CR, the four separators
    0x1c-0x1f, and the space. *)
Definition isspace (c : ascii) : bool :=
  let n := nat_of_ascii c in
  ((9 <=? n) && (n <=? 13))%nat || ((28 <=? n) && (n <=? 32))%nat.

Fixpoint lstrip (s : list ascii) : list ascii :=
  match s with
  | [] => []
  | c :: s' => if isspace c then lstrip s' else s
  end.

Definition rstrip (s : list ascii) : list ascii := rev (lstrip (rev s)).

(** [s.strip()] *)
Definition strip (s : list ascii) : list ascii := lstrip (rstrip s).

(** [s.split(sep)] for a one-character separator. *)
Fixpoint split_char (sep : ascii) (s : list ascii) : list (list ascii) :=
  match s with
  | [] => [[]]
  | c :: s' =>
      let r := split_char sep s' in
      if Ascii.eqb c sep then [] :: r
      else match r with
           | p :: ps => (c :: p) :: ps
           | [] => [[c]]
           end
  end.

(** [len(s.split('.'))] on a [string]. *)
Definition dot_parts (s : string) : nat :=
  length (split_char "." (list_ascii_of_string s)).

(** The digits of [int(...)]: decimal digits, single underscores allowed
    between two digits. *)
Fixpoint int_digits (acc : Z) (after_digit : bool) (s : list ascii) : option Z :=
  match s with
  | [] => if after_digit then Some acc else None
  | c :: s' =>
      if is_digit c then int_digits (acc * 10 + digit_val c) true s'
      else if Ascii.eqb c "_" && after_digit then int_digits acc false s'
      else None
  end.

(** [int(s)] on a string: surrounding whitespace, an optional sign, then
    digits; [None] is the [ValueError]. *)
Definition int (s : list ascii) : option Z :=
  match strip s with
  | [] => None
  | c :: r =>
      if Ascii.eqb c "-" then option_map Z.opp (int_digits 0 false r)
      else if Ascii.eqb c "+" then int_digits 0 false r
      else int_digits 0 false (c :: r)
  end.

Fixpoint uint_chars (d : Decimal.uint) : list ascii :=
  match d with
  | Decimal.Nil => []
  | Decimal.D0 d => "0"%char :: uint_chars d
  | Decimal.D1 d => "1"%char :: uint_chars d
  | Decimal.D2 d => "2"%char :: uint_chars d
  | Decimal.D3 d => "3"%char :: uint_chars d
  | Decimal.D4 d => "4"%char :: uint_chars d
  | Decimal.D5 d => "5"%char :: uint_chars d
  | Decimal.D6 d => "6"%char :: uint_chars d
  | Decimal.D7 d => "7"%char :: uint_chars d
  | Decimal.D8 d => "8"%char :: uint_chars d
  | Decimal.D9 d => "9"%char :: uint_chars d
  end.

(** Decimal rendering of a natural number. *)
Definition nat_str (n : nat) : list ascii := uint_chars (Nat.to_uint n).

(** [str(z)] for a Python int. *)
Definition z_str (z : Z) : list ascii :=
  if (z <? 0)%Z then "-"%char :: nat_str (Z.to_nat (- z)) else nat_str (Z.to_nat z).

Definition dec (n : nat) : string := string_of_list_ascii (nat_str n).

End Py.

(* ================================================================== *)
(** ** [distutils.version.StrictVersion] *)

Module StrictVersion.
Import Py.

(** A parsed version: the numeric triple and the optional pre-release tag. *)
Record t := mk { version : Z * Z * Z; prerelease : option (ascii * Z) }.

Fixpoint span_digits (s : list ascii) : list ascii * list ascii :=
  match s with
  | c :: s' =>
      if is_digit c then let (d, r) := span_digits s' in (c :: d, r)
      else ([], s)
  | [] => ([], [])
  end.

Definition digits_value (d : list ascii) : Z :=
  fold_left (fun acc c => acc * 10 + digit_val c)%Z d 0%Z.

(** The optional group [(\. (\d+))?]. *)
Definition opt_patch (r : list ascii) : option (list ascii) * list ascii :=
  match r with
  | c :: r' =>
      if Ascii.eqb c "." then
        let (d, r'') := span_digits r' in
        match d with [] => (None, r) | _ => (Some d, r'') end
      else (None, r)
  | [] => (None, r)
  end.

(** The optional group [([ab](\d+))?]. *)
Definition opt_pre (r : list ascii) : option (ascii * list ascii) * list ascii :=
  match r with
  | c :: r' =>
      if Ascii.eqb c "a" || Ascii.eqb c "b" then
        let (d, r'') := span_digits r' in
        match d with [] => (None, r) | _ => (Some (c, d), r'') end
      else (None, r)
  | [] => (None, r)
  end.

(** [$]: the end of the string, or a final newline. *)
Definition at_end (r : list ascii) : bool :=
  match r with
  | [] => true
  | [c] => Ascii.eqb c "010"
  | _ => false
  end.

(** [StrictVersion.parse]: the match of
    [^(\d+) \. (\d+) (\. (\d+))? ([ab](\d+))?$] (VERBOSE, ASCII). The
    digit runs are followed by non-digits, so greedy matching never has to
    backtrack into them; an optional group that cannot match is skipped.
    [None] is the [ValueError("invalid version number")]. *)
Definition parse (vs : string) : option t :=
  let s := list_ascii_of_string vs in
  let (d1, r1) := span_digits s in
  match d1, r1 with
  | _ :: _, c :: r2 =>
      if Ascii.eqb c "." then
        let (d2, r3) := span_digits r2 in
        match d2 with
        | [] => None
        | _ :: _ =>
            let (p, r4) := opt_patch r3 in
            let (pre, r5) := opt_pre r4 in
            if at_end r5 then
              Some (mk (digits_value d1, digits_value d2,
                        match p with Some d3 => digits_value d3 | None => 0%Z end)
                       (match pre with
                        | Some (c', d4) => Some (c', digits_value d4)
                        | None => None
                        end))
            else None
        end
      else None
  | _, _ => None
  end.

Definition cmp_triple (a b : Z * Z * Z) : comparison :=
  let '(a1, a2, a3) := a in
  let '(b1, b2, b3) := b in
  match Z.compare a1 b1 with
  | Eq => match Z.compare a2 b2 with Eq => Z.compare a3 b3 | o => o end
  | o => o
  end.

Definition cmp_pre (a b : ascii * Z) : comparison :=
  match Nat.compare (nat_of_ascii (fst a)) (nat_of_ascii (fst b)) with
  | Eq => Z.compare (snd a) (snd b)
  | o => o
  end.

(** [StrictVersion._cmp]. *)
Definition cmp (a b : t) : comparison :=
  match cmp_triple (version a) (version b) with
  | Eq =>
      match prerelease a, prerelease b with
      | None, None => Eq
      | Some _, None => Lt
      | None, Some _ => Gt
      | Some p, Some q => cmp_pre p q
      end
  | o => o
  end.

(** [a <= b]. *)
Definition le (a b : t) : bool :=
  match cmp a b with Gt => false | _ => true end.

End StrictVersion.

(* ================================================================== *)
(** ** Python text operations used by the changelog *)

Module Text.
Import Py.

Definition nl : ascii := "010".

(** Prepending a character to the first piece of a split. *)
Definition cons_head (c : ascii) (r : list (list ascii)) : list (list ascii) :=
  match r with p :: ps => (c :: p) :: ps | [] => [[c]] end.

(** [s.split('\n\n')]: leftmost, non-overlapping occurrences. *)
Fixpoint split_blank (s : list ascii) : list (list ascii) :=
  match s with
  | [] => [[]]
  | c :: rest =>
      if Ascii.eqb c nl then
        match rest with
        | c2 :: rest2 =>
            if Ascii.eqb c2 nl then [] :: split_blank rest2
            else cons_head c (split_blank rest)
        | [] => cons_head c (split_blank rest)
        end
      else cons_head c (split_blank rest)
  end.

(** [sep.join(parts)]. *)
Fixpoint join (sep : list ascii) (parts : list (list ascii)) : list ascii :=
  match parts with
  | [] => []
  | [p] => p
  | p :: ps => p ++ sep ++ join sep ps
  end.

End Text.

(* ================================================================== *)
(** ** XML trees (lxml elements) *)

Module Xml.

(** An element: tag, attributes in document order, text ([None] when the
    element has no text), children. *)
Inductive node : Type :=
| Node (tag : string) (attrib : list (string * string)) (text : option string)
       (children : list node).

Definition tag (n : node) : string := let 'Node t _ _ _ := n in t.
Definition attrib (n : node) : list (string * string) := let 'Node _ a _ _ := n in a.
Definition text (n : node) : option string := let 'Node _ _ x _ := n in x.
Definition children (n : node) : list node := let 'Node _ _ _ c := n in c.

(** [element.attrib.get(k)] *)
Fixpoint attr_get (k : string) (a : list (string * string)) : option string :=
  match a with
  | [] => None
  | (k', v) :: a' => if String.eqb k k' then Some v else attr_get k a'
  end.

(** [attrib[k] = v]: an existing key keeps its place, a new one goes last. *)
Fixpoint attr_set (k v : string) (a : list (string * string)) : list (string * string) :=
  match a with
  | [] => [(k, v)]
  | (k', v') :: a' => if String.eqb k k' then (k', v) :: a' else (k', v') :: attr_set k v a'
  end.

(** [root.attrib.update(d)] *)
Definition attr_update (d : list (string * string)) (n : node) : node :=
  let 'Node t a x c := n in
  Node t (fold_left (fun acc '(k, v) => attr_set k v acc) d a) x c.

(** [node.find(path)] for a child step: the first child satisfying [p]. *)
Fixpoint find_child (p : node -> bool) (l : list node) : option node :=
  match l with
  | [] => None
  | n :: l' => if p n then Some n else find_child p l'
  end.

(** Mutating the element [find] returned: the first child satisfying [p]
    is replaced by [f] of it. *)
Fixpoint update_first (p : node -> bool) (f : node -> node) (l : list node) : list node :=
  match l with
  | [] => []
  | n :: l' => if p n then f n :: l' else n :: update_first p f l'
  end.

Definition has_tag (k : string) (n : node) : bool := String.eqb (tag n) k.

(** [not _node.text]: no text, or the empty string. *)
Definition text_empty (n : node) : bool :=
  match text n with None => true | Some s => String.eqb s "" end.

Definition set_text (v : string) (n : node) : node :=
  let 'Node t a _ c := n in Node t a (Some v) c.

(** One iteration of the loop over [default_meta]:
    [_node = node.find(key); if _node is not None and not _node.text:
     _node.text = value]. *)
Definition fill_key (key value : string) (meta : node) : node :=
  let 'Node t a x c := meta in
  Node t a x (update_first (has_tag key)
                (fun n => if text_empty n then set_text value n else n) c).

Definition fill_defaults (defaults : list (string * string)) (meta : node) : node :=
  fold_left (fun m '(k, v) => fill_key k v m) defaults meta.

(** [./extension/[@point='xbmc.addon.metadata']] *)
Definition is_metadata (n : node) : bool :=
  String.eqb (tag n) "extension"
  && match attr_get "point" (attrib n) with
     | Some p => String.eqb p "xbmc.addon.metadata"
     | None => false
     end.

(** Lines 162-167 of [update_addon]: fill the defaults into the metadata
    extension node, when there is one. *)
Definition apply_defaults (defaults : list (string * string)) (root : node) : node :=
  let 'Node t a x c := root in
  Node t a x (update_first is_metadata (fill_defaults defaults) c).

(** A manifest file on disk, as [ET.parse] sees it. *)
Inductive xmlfile : Type :=
| Parsed (root : node)
| Malformed.

End Xml.

(* ================================================================== *)
(** ** A state-and-error monad *)

Module Monad.

(** The exceptions the script raises, named after the spec's taxonomy where
    one matches. *)
Inductive error : Type :=
| AddonNotFound            (** "Could not find that addon path" *)
| MissingSource            (** "Missing addon src path" *)
| GitFailed (cmd : string) (** [CalledProcessError] of [check_output] *)
| ManifestNotFound         (** [OSError] of [ET.parse] / [open] on a missing file *)
| ManifestMalformed        (** [XMLSyntaxError] *)
| MissingVersionAttribute  (** [KeyError] of [root.attrib['version']] *)
| CheckoutMismatch         (** "Could not checkout src" *)
| AlreadyUpToDate          (** "... is already using #..." *)
| InvalidVersion           (** [ValueError]: [StrictVersion], [int()], unpacking *)
| VersionNotHigher         (** "Target version ... is not higher than ..." *)
| VersionTooManyParts      (** "Target version ... not valid" *)
| FileOpFailed (op : string). (** an [OSError] of [shutil] or [zipfile] *)

(** A run ends with a value or an exception, and in both cases with the
    state the working tree is left in. *)
Inductive res (S A : Type) : Type :=
| Ok (a : A) (s : S)
| Err (e : error) (s : S).
Arguments Ok {S A}.
Arguments Err {S A}.

Definition M (S A : Type) : Type := S -> res S A.

Definition ret {S A} (a : A) : M S A := fun s => Ok a s.
Definition raise {S A} (e : error) : M S A := fun s => Err e s.
Definition bind {S A B} (m : M S A) (k : A -> M S B) : M S B :=
  fun s => match m s with Ok a s' => k a s' | Err e s' => Err e s' end.
Definition modify {S} (f : S -> S) : M S unit := fun s => Ok tt (f s).
Definition gets {S A} (f : S -> A) : M S A := fun s => Ok (f s) s.

(** An external step that succeeds or raises [e]. *)
Definition check {S} (ok : bool) (e : error) : M S unit :=
  if ok then ret tt else raise e.

(** The state a run leaves behind, whether it returned or raised. *)
Definition state_of {S A} (r : res S A) : S :=
  match r with Ok _ s | Err _ s => s end.

End Monad.

Notation "x <- m ;; k" := (Monad.bind m (fun x => k))
  (at level 61, m at next level, right associativity).
Notation "' p <- m ;; k" := (Monad.bind m (fun x => match x with p => k end))
  (at level 61, p pattern, m at next level, right associativity).
Notation "m ;;; k" := (Monad.bind m (fun _ => k))
  (at level 61, right associativity).

(* ================================================================== *)
(** ** [update_addon]: one release of one addon *)

Module Release.
Import Py Xml Monad.

Definition PROVIDER : string := "MattHuisman.nz".
Definition LOG_CHANGES : nat := 5.

(** [default_meta], after line 160 has set its ['news'] entry. *)
Definition default_meta (news : string) : list (string * string) :=
  [("license", "GNU General Public License, v2");
   ("website", "https://www.matthuisman.nz");
   ("news", news)].

(** The part of the addon directory the script changes. *)
Record State := mkState {
  st_addon_xml : option xmlfile;  (** [<addon>/addon.xml], [None] when absent *)
  st_staging : bool;              (** the staging directory [<addon>/<addon>] exists *)
  st_archives : list (string * bool)
    (** the archive files written, latest last, each with whether its
        content is complete ([false]: a write that failed part-way) *)
}.

Definition set_addon_xml (f : option xmlfile) (s : State) : State :=
  mkState f (st_staging s) (st_archives s).
Definition set_staging (b : bool) (s : State) : State :=
  mkState (st_addon_xml s) b (st_archives s).
Definition add_archive (z : string * bool) (s : State) : State :=
  mkState (st_addon_xml s) (st_staging s) (st_archives s ++ [z]).

(** What [shutil.copytree] does: copy everything, or fail, having created
    the destination directory or not. *)
Inductive copy_outcome : Type :=
| CopyOk
| CopyFailed (created : bool).

(** What a step that writes one file ([shutil.make_archive], [shutil.copy])
    does: write it, or raise, having left a partly written file or not. *)
Inductive file_outcome : Type :=
| FileOk
| FileFailed (partial : bool).

(** The outcomes of the external commands and file-system queries of one
    run of [update_addon]. *)
Record Env := mkEnv {
  env_addon_dir : bool;            (** [os.path.exists(addon_path)] *)
  env_src_xml : bool;              (** [os.path.exists(src_xml_path)] on entry *)
  env_init_ok : bool;              (** [git submodule update --init src] *)
  env_src_dir : bool;              (** [os.path.exists(src_path)] afterwards *)
  env_revert : option (option xmlfile);
    (** [revert(addon)]: [None] when one of its git commands fails, else
        [addon.xml] as [git clean -f] and [git checkout .] leave it (its
        committed content) *)
  env_head_before : option string; (** [git rev-parse HEAD] in [src] before fetching *)
  env_fetch_ok : bool;             (** fetch, merge, [submodule init], [submodule update] *)
  env_checkout_ok : bool;          (** [git checkout <target_commit>] *)
  env_head : option string;        (** [git rev-parse HEAD] in [src] afterwards *)
  env_src_manifest : option xmlfile; (** [src/addon.xml] then *)
  env_log : string -> option string;
    (** [git log -n 5 --pretty=%B <comp>]: its output, for the range
        argument [comp] *)
  env_date : string;               (** [datetime.now().strftime("%d/%m/%Y")] *)
  env_icons_ok : bool;             (** removing and copying [icon.png], [fanart.jpg] *)
  env_rmtree_before : bool;
    (** [shutil.rmtree(tmp_dir, ignore_errors=True)] of line 184 removes the
        staging directory, if there is one; [false] when an error it
        ignored left the directory in place *)
  env_copytree : copy_outcome;     (** [shutil.copytree(src_path, tmp_dir, ...)] *)
  env_copy_xml_ok : bool;          (** [shutil.copy(addon_xml_path, tmp_dir/addon.xml)] *)
  env_archive : file_outcome;      (** [shutil.make_archive] *)
  env_rmtree_after : bool;         (** the same for the [rmtree] of line 191 *)
  env_latest : file_outcome        (** [shutil.copy] to [<addon>-latest.zip] *)
}.

(** [revert(addon)] (lines 80-89). *)
Definition revert (env : Env) : M State unit :=
  match env_revert env with
  | None => raise (GitFailed "revert")
  | Some f => modify (set_addon_xml f)
  end.

(** The [try] block of lines 115-122: the baseline version and commit. A
    missing [addon.xml] is the caught [OSError]. *)
Definition read_baseline (env : Env) : M State (string * option string) :=
  fun st =>
    match st_addon_xml st with
    | None => Ok ("0.0.0", None) st
    | Some Malformed => Err ManifestMalformed st
    | Some (Parsed root) =>
        match attr_get "version" (attrib root) with
        | None => Err MissingVersionAttribute st
        | Some v =>
            match env_head_before env with
            | None => Err (GitFailed "rev-parse") st
            | Some c => Ok (v, Some c) st
            end
        end
    end.

Definition is_head (tc : string) : bool := String.eqb tc "HEAD".

(** Lines 104-131: up to the resolved commit. Returns the baseline version,
    the baseline commit and the resolved commit. *)
Definition prepare (env : Env) (tc : string) : M State (string * option string * string) :=
  check (env_addon_dir env) AddonNotFound ;;;
  (if env_src_xml env then ret tt
   else check (env_init_ok env) (GitFailed "submodule update --init")) ;;;
  check (env_src_dir env) MissingSource ;;;
  revert env ;;;
  '(cur_version, cur_commit) <- read_baseline env ;;
  check (env_fetch_ok env) (GitFailed "fetch/merge") ;;;
  (if is_head tc then ret tt else check (env_checkout_ok env) (GitFailed "checkout")) ;;;
  commit <- (match env_head env with
             | Some c => ret c
             | None => raise (GitFailed "rev-parse")
             end) ;;
  ret (cur_version, cur_commit, commit).

(** [target_commit == 'HEAD' or target_commit == commit[:len(target_commit)]] *)
Definition pinned (tc commit : string) : bool :=
  is_head tc || String.eqb tc (substring 0 (String.length tc) commit).

Definition is_auto (tv : string) : bool := String.eqb tv "AUTO".

Definition same_commit (cur_commit : option string) (commit : string) : bool :=
  match cur_commit with Some c => String.eqb c commit | None => false end.

(** Lines 132-135. *)
Definition check_commit (tv tc : string) (cur_commit : option string) (commit : string)
  : M State unit :=
  if negb (pinned tc commit) then raise CheckoutMismatch
  else if is_auto tv && same_commit cur_commit commit then raise AlreadyUpToDate
  else ret tt.

(** Lines 140-141: [major, minor, patch = cur_version.split('.')] and
    ['{0}.{1}.{2}'.format(major, int(minor)+1, 0)]. *)
Definition auto_bump (cur_version : string) : option string :=
  match split_char "." (list_ascii_of_string cur_version) with
  | [major; minor; _] =>
      match int minor with
      | Some m => Some (string_of_list_ascii (major ++ ["."%char] ++ z_str (m + 1) ++ ["."%char; "0"%char]))
      | None => None
      end
  | _ => None
  end.

Fixpoint repeat_str (n : nat) (s : string) : string :=
  match n with O => "" | S n' => (s ++ repeat_str n' s)%string end.

(** Lines 146-149: at most three parts, padded with [.0] to three. *)
Definition pad_version (tv : string) : option string :=
  let parts := dot_parts tv in
  if (3 <? parts)%nat then None else Some (tv ++ repeat_str (3 - parts) ".0")%string.

(** Lines 139-149: the version of the release. *)
Definition decide_version (tv cur_version : string) : M State string :=
  v <- (if is_auto tv then
          match auto_bump cur_version with
          | Some v => ret v
          | None => raise InvalidVersion
          end
        else
          match StrictVersion.parse tv with
          | None => raise InvalidVersion
          | Some a =>
              match StrictVersion.parse cur_version with
              | None => raise InvalidVersion
              | Some b => if StrictVersion.le a b then raise VersionNotHigher else ret tv
              end
          end) ;;
  match pad_version v with
  | None => raise VersionTooManyParts
  | Some v' => ret v'
  end.

(** Line 158: the range given to [git log]. *)
Definition comp_range (cur_commit : option string) (short : string) : string :=
  match cur_commit with
  | Some c => if String.eqb c "" then "-1" else (c ++ ".." ++ short)%string
  | None => "-1"
  end.

(** Line 159: ["- " + "\n- ".join(output.strip().split('\n\n'))]. *)
Definition changelog (output : string) : string :=
  string_of_list_ascii
    (["-"%char; " "%char] ++
     Text.join [Text.nl; "-"%char; " "%char]
               (Text.split_blank (strip (list_ascii_of_string output)))).

(** Line 160. *)
Definition news (tv short date changes : string) : string :=
  (tv ++ " #" ++ short ++ " (" ++ date ++ ")" ++ String Text.nl changes)%string.

(** Lines 151-171: the new manifest, written over [addon.xml]. The file
    holds the XML declaration and the pretty-printed [root]; the model
    keeps the tree that is serialized. *)
Definition write_manifest (env : Env) (tv short : string) (cur_commit : option string)
  : M State unit :=
  root <- (match env_src_manifest env with
           | None => raise ManifestNotFound
           | Some Malformed => raise ManifestMalformed
           | Some (Parsed r) => ret r
           end) ;;
  let root := attr_update [("version", tv); ("provider-name", PROVIDER)] root in
  output <- (match env_log env (comp_range cur_commit short) with
             | Some o => ret o
             | None => raise (GitFailed "log")
             end) ;;
  let meta := default_meta (news tv short (env_date env) (changelog output)) in
  modify (set_addon_xml (Some (Parsed (apply_defaults meta root)))).

(** [shutil.rmtree(tmp_dir, ignore_errors=True)]: an error is swallowed,
    and the directory then stays. *)
Definition rmtree (removed : bool) : M State unit :=
  if removed then modify (set_staging false) else ret tt.

(** A step writing the file [name]; [op] names it in the error. *)
Definition write_archive (o : file_outcome) (name op : string) : M State unit :=
  match o with
  | FileOk => modify (add_archive (name, true))
  | FileFailed partial =>
      (if partial then modify (add_archive (name, false)) else ret tt) ;;;
      raise (FileOpFailed op)
  end.

(** Lines 173-193: assets, staging copy, archives. [copytree] raises
    [FileExistsError] when its destination exists, that is when the first
    [rmtree] left a stale staging directory. *)
Definition package (env : Env) (addon tv : string) : M State unit :=
  check (env_icons_ok env) (FileOpFailed "copy assets") ;;;
  rmtree (env_rmtree_before env) ;;;
  stale <- gets st_staging ;;
  (if stale then raise (FileOpFailed "copytree")
   else match env_copytree env with
        | CopyOk => modify (set_staging true)
        | CopyFailed created =>
            modify (set_staging created) ;;; raise (FileOpFailed "copytree")
        end) ;;;
  check (env_copy_xml_ok env) (FileOpFailed "copy addon.xml") ;;;
  write_archive (env_archive env) (addon ++ "-" ++ tv ++ ".zip") "make_archive" ;;;
  rmtree (env_rmtree_after env) ;;;
  write_archive (env_latest env) (addon ++ "-latest.zip") "copy latest".

(** [if not x: x = default] *)
Definition or_default (x : option string) (d : string) : string :=
  match x with
  | None => d
  | Some s => if String.eqb s "" then d else s
  end.

(** [update_addon(addon, target_version, target_commit)] (lines 91-195). *)
Definition update_addon (env : Env) (addon : string)
           (target_version target_commit : option string) : M State unit :=
  let tv := or_default target_version "AUTO" in
  let tc := or_default target_commit "HEAD" in
  '(cur_version, cur_commit, commit) <- prepare env tc ;;
  check_commit tv tc cur_commit commit ;;;
  let short := substring 0 7 commit in
  v <- decide_version tv cur_version ;;
  write_manifest env v short cur_commit ;;;
  package env addon v.

End Release.

(* ================================================================== *)
(** ** [update_addons_xml]: the repository index *)

Module Index.
Import Xml Monad.

Definition ADDONS_XML : string := "addons.xml".

(** An entry of [os.listdir(ROOT_DIR)]. *)
Record entry := mkEntry {
  e_name : string;
  e_is_dir : bool;                 (** [os.path.isdir] *)
  e_manifest : option xmlfile      (** [<entry>/addon.xml], [None] when absent *)
}.

(** The repository root, in directory-listing order. *)
Record RepoFS := mkRepo {
  entries : list entry;
  index_file : option (list ascii);  (** the bytes of [addons.xml] *)
  index_md5 : option string          (** the content of [addons.xml.md5] *)
}.

Definition set_index (b : list ascii) (fs : RepoFS) : RepoFS :=
  mkRepo (entries fs) (Some b) (index_md5 fs).
Definition set_md5 (m : string) (fs : RepoFS) : RepoFS :=
  mkRepo (entries fs) (index_file fs) (Some m).

(** [get_addons()]: the directories other than [.git], in listing order. *)
Definition is_addon (e : entry) : bool :=
  negb (String.eqb (e_name e) ".git") && e_is_dir e.

Definition get_addons (es : list entry) : list entry := filter is_addon es.

(** The loop of lines 61-67: skip an addon without [addon.xml], parse the
    others and collect their roots. *)
Fixpoint collect (es : list entry) : M RepoFS (list node) :=
  match es with
  | [] => ret []
  | e :: es' =>
      match e_manifest e with
      | None => collect es'
      | Some Malformed => raise ManifestMalformed
      | Some (Parsed r) => rest <- collect es' ;; ret (r :: rest)
      end
  end.

Definition dq : ascii := "034".

(** [<?xml version="1.0" encoding="UTF-8" standalone="yes"?>] and a newline. *)
Definition xml_decl : list ascii :=
  list_ascii_of_string "<?xml version=" ++ [dq] ++ list_ascii_of_string "1.0" ++ [dq]
  ++ list_ascii_of_string " encoding=" ++ [dq] ++ list_ascii_of_string "UTF-8" ++ [dq]
  ++ list_ascii_of_string " standalone=" ++ [dq] ++ list_ascii_of_string "yes" ++ [dq]
  ++ list_ascii_of_string "?>" ++ [Text.nl].

(** [open(..., 'w', newline='\r\n')]: every newline written becomes CR LF. *)
Definition crlf (s : list ascii) : list ascii :=
  flat_map (fun c => if Ascii.eqb c Text.nl then ["013"%char; Text.nl] else [c]) s.

(** What [with open(path, 'w', ...) as f: f.write(text)] does: write the
    file; fail to open it (a read-only file), which changes nothing; or
    fail part-way through writing, after opening truncated the file, which
    then holds the first [n] characters. *)
Inductive write_outcome : Type :=
| Written
| OpenFailed
| WriteFailed (n : nat).

Section Builder.

(** [ET.tostring(e, pretty_print=True, ...).decode('utf-8')] *)
Variable tostring : node -> list ascii.
(** [hashlib.md5(...).hexdigest()] of a file's bytes *)
Variable md5_hexdigest : list ascii -> string.
(** Writing [addons.xml] (lines 70-71). *)
Variable index_write : write_outcome.
(** Writing [addons.xml.md5] (lines 74-75). *)
Variable md5_write : write_outcome.

(** [md5(addons_xml_path)]: reading a missing file raises. *)
Definition md5_file : M RepoFS string :=
  fun fs =>
    match index_file fs with
    | None => Err ManifestNotFound fs
    | Some b => Ok (md5_hexdigest b) fs
    end.

(** Lines 70-71: the bytes [b] written to [addons.xml]. *)
Definition write_index (b : list ascii) : M RepoFS unit :=
  match index_write with
  | Written => modify (set_index b)
  | OpenFailed => raise (FileOpFailed "open addons.xml")
  | WriteFailed n => modify (set_index (firstn n b)) ;;; raise (FileOpFailed "write addons.xml")
  end.

(** Lines 74-75: the line [m] written to [addons.xml.md5]. *)
Definition write_md5 (m : string) : M RepoFS unit :=
  match md5_write with
  | Written => modify (set_md5 m)
  | OpenFailed => raise (FileOpFailed "open addons.xml.md5")
  | WriteFailed n =>
      modify (set_md5 (substring 0 n m)) ;;; raise (FileOpFailed "write addons.xml.md5")
  end.

(** [update_addons_xml()] (lines 49-78). *)
Definition update_addons_xml : M RepoFS unit :=
  _old <- md5_file ;;
  addons <- gets (fun fs => get_addons (entries fs)) ;;
  roots <- collect addons ;;
  let text := xml_decl ++ tostring (Node "addons" [] None roots) in
  write_index (crlf text) ;;;
  m <- md5_file ;;
  write_md5 (m ++ " " ++ ADDONS_XML)%string.

End Builder.

End Index.

(* ================================================================== *)
(** ** The commit log as [git log --pretty=%B] prints it *)

Module GitLog.
Import Py Text.

(** A commit message as a list of paragraphs; a paragraph contains no blank
    line. *)
Definition message := list (list ascii).

(** [--pretty=%B] is a terminator format: each commit prints its raw body
    (the paragraphs separated by a blank line, with a final newline) and
    then a newline. *)
Definition output (msgs : list message) : list ascii :=
  concat (map (fun m => join [nl; nl] m ++ [nl; nl]) msgs).

(** No blank line inside, no newline at the end. *)
Fixpoint splittable (p : list ascii) : bool :=
  match p with
  | [] => true
  | [c] => negb (Ascii.eqb c nl)
  | c :: ((c2 :: _) as p') =>
      negb (Ascii.eqb c nl && Ascii.eqb c2 nl) && splittable p'
  end.

(** A paragraph as git keeps it: no blank line, and, since git strips the
    trailing whitespace of every line, non-empty and ending in a
    non-whitespace character. It may start with whitespace (an indented
    line). *)
Definition para_ok (p : list ascii) : bool :=
  splittable p && match rev p with c :: _ => negb (isspace c) | [] => false end.

(** The text starts with a non-whitespace character. *)
Definition head_ok (s : list ascii) : Prop :=
  match s with c :: _ => isspace c = false | [] => False end.

(** The paragraphs with the leading whitespace of the first one removed,
    as [strip] removes it from the whole log. *)
Definition strip_first (ps : list (list ascii)) : list (list ascii) :=
  match ps with p :: ps' => lstrip p :: ps' | [] => [] end.

End GitLog.

Module IndexSpec.
Import Xml Index.

(** The roots the index should aggregate: for each addon directory in
    listing order, the root of its parsed manifest, if it has one. *)
Definition addon_roots (es : list entry) : list node :=
  flat_map (fun e => if is_addon e then
                       match e_manifest e with Some (Parsed r) => [r] | _ => [] end
                     else []) es.

Definition has_malformed (es : list entry) : bool :=
  existsb (fun e => is_addon e &&
                    match e_manifest e with Some Malformed => true | _ => false end) es.

End IndexSpec.

(** Positions in a list of children. *)
Module XmlSpec.
Import Xml.

(** The position of the first child satisfying [p]. *)
Fixpoint find_index (p : node -> bool) (l : list node) : option nat :=
  match l with
  | [] => None
  | n :: l' => if p n then Some 0 else option_map S (find_index p l')
  end.

(** Child [i] is the first one satisfying [p]. *)
Definition is_first (p : node -> bool) (l : list node) (i : nat) : bool :=
  match find_index p l with Some j => Nat.eqb j i | None => false end.

End XmlSpec.

(* ================================================================== *)
(** ** Concrete runs *)

Module Observe.
Import Py Text.

(** Every LF of the text is the second byte of a CR LF pair. *)
Fixpoint no_bare_lf (s : list ascii) : bool :=
  match s with
  | [] => true
  | c :: r =>
      if Ascii.eqb c nl then false
      else if Ascii.eqb c "013" then
        match r with
        | d :: r' => if Ascii.eqb d nl then no_bare_lf r' else no_bare_lf r
        | [] => true
        end
      else no_bare_lf r
  end.

(** [s.replace('\n\n', '\n- ')]: leftmost, non-overlapping occurrences. *)
Fixpoint replace_blank (s : list ascii) : list ascii :=
  match s with
  | c :: ((c2 :: r) as r1) =>
      if Ascii.eqb c nl && Ascii.eqb c2 nl then nl :: "-"%char :: " "%char :: replace_blank r
      else c :: replace_blank r1
  | _ => s
  end.

(** The lower-case hexadecimal digits [git rev-parse] prints. *)
Definition hex_digit (c : ascii) : bool :=
  is_digit c || ((97 <=? nat_of_ascii c) && (nat_of_ascii c <=? 102))%nat.

Definition is_hex (s : string) : bool := forallb hex_digit (list_ascii_of_string s).

(** A run of decimal digits. *)
Definition digits (d : list ascii) : Prop := Forall (fun c => is_digit c = true) d.

End Observe.

Module Scenarios.
Import Xml Release.

(** A manifest with a metadata extension node. *)
Definition manifest (version license : string) : node :=
  Node "addon" [("id", "plugin.video.example"); ("version", version)] None
    [Node "requires" [] None [];
     Node "extension" [("point", "xbmc.addon.metadata")] None
       [Node "license" [] (Some license) [];
        Node "website" [] None [];
        Node "news" [] None []]].

Definition committed : node := manifest "1.4.0" "Custom".
Definition edited : node := manifest "1.4.0" "Custom, edited".

Definition BASE : string := "3f2a9c1b7e5d4c3b2a1f0e9d8c7b6a5f4e3d2c1b".
Definition NEW : string := "8d4e6f0a21b3c5d7e9f1a2b4c6d8e0f1a3b5c7d9".

(** A run where every external step succeeds (except perhaps the archive,
    which then fails part-way),
    the baseline commit is [BASE] and the resolved commit [head]. *)
Definition env_release (head : string) (archive_ok : bool) : Env :=
  mkEnv true true true true (Some (Some (Parsed committed))) (Some BASE)
    true true (Some head) (Some (Parsed (manifest "0.0.1" "")))
    (fun _ => Some "Fix playback")
    "18/10/2026" true true CopyOk true
    (if archive_ok then FileOk else FileFailed true) true FileOk.

Definition st_clean : State := mkState (Some (Parsed committed)) false [].
Definition st_dirty : State := mkState (Some (Parsed edited)) false [].

(** The state after the release of [1.5] from [st_clean]. *)
Definition st_released : State :=
  Eval vm_compute in
    match update_addon (env_release NEW true) "plugin.video.example" (Some "1.5") None st_clean with
    | Monad.Ok _ s | Monad.Err _ s => s
    end.

(** A metadata node with a whitespace-only [website] and no [news]. *)
Definition sparse : node :=
  Node "addon" [("id", "plugin.video.example"); ("version", "1.4.0")] None
    [Node "extension" [("point", "xbmc.addon.metadata")] None
       [Node "license" [] (Some "Custom") [];
        Node "website" [] (Some "  ") []]].

(** Two commit messages of two paragraphs each, newest first; the second
    paragraph of the older one is an indented list. *)
Definition log_msgs : list GitLog.message :=
  [[list_ascii_of_string "Fix playback"; list_ascii_of_string "Seek works again"];
   [list_ascii_of_string "Add search";
    list_ascii_of_string "  - by title" ++ [Text.nl] ++ list_ascii_of_string "  - by year"]].

(** A repository of two addons, the second with a manifest that does not
    parse, and an existing index. *)
Definition repo_bad : Index.RepoFS :=
  Index.mkRepo
    [Index.mkEntry ".git" true None;
     Index.mkEntry "plugin.a" true (Some (Parsed (manifest "1.0.0" "Custom")));
     Index.mkEntry "plugin.b" true (Some Malformed);
     Index.mkEntry "README.md" false None]
    (Some (list_ascii_of_string "<addons/>")) (Some "0 addons.xml").

Definition repo_ok : Index.RepoFS :=
  Index.mkRepo
    [Index.mkEntry ".git" true None;
     Index.mkEntry "plugin.a" true (Some (Parsed (manifest "1.0.0" "Custom")));
     Index.mkEntry "plugin.b" true (Some (Parsed (manifest "2.3.0" "Custom")));
     Index.mkEntry "plugin.c" true None]
    (Some (list_ascii_of_string "<addons/>")) (Some "0 addons.xml").

Definition repo_fresh : Index.RepoFS :=
  Index.mkRepo (Index.entries repo_ok) None None.

(** Stand-ins for the serializer and the digest. *)
Definition tostring_tags (n : node) : list ascii := list_ascii_of_string (tag n).
Definition digest_len (b : list ascii) : string := Py.dec (length b).

(** A run where [revert] leaves no [addon.xml] (the file was untracked,
    and [git clean -f] removed it). *)
Definition env_untracked : Env :=
  mkEnv true true true true (Some None) None
    true true (Some NEW) (Some (Parsed (manifest "0.0.1" "")))
    (fun _ => Some "Initial release")
    "18/10/2026" true true CopyOk true FileOk true FileOk.

(** A release where the [rmtree] of line 191 hits an error it ignores. *)
Definition env_stuck_staging : Env :=
  mkEnv true true true true (Some (Some (Parsed committed))) (Some BASE)
    true true (Some NEW) (Some (Parsed (manifest "0.0.1" "")))
    (fun _ => Some "Fix playback")
    "18/10/2026" true true CopyOk true FileOk false FileOk.

(** The state after the automatic release with [env_untracked]. *)
Definition st_first_release : State :=
  Eval vm_compute in
    match update_addon env_untracked "plugin.video.example" None None st_clean with
    | Monad.Ok _ s | Monad.Err _ s => s
    end.

(** The state after the automatic release with [env_release NEW true]. *)
Definition st_auto_release : State :=
  Eval vm_compute in
    match update_addon (env_release NEW true) "plugin.video.example" None None st_clean with
    | Monad.Ok _ s | Monad.Err _ s => s
    end.

(** The state after an automatic release whose [make_archive] fails. *)
Definition st_archive_failed : State :=
  Eval vm_compute in
    match update_addon (env_release NEW false) "plugin.video.example" None None st_clean with
    | Monad.Ok _ s | Monad.Err _ s => s
    end.

(** [repo_ok] after the rebuild. *)
Definition repo_rebuilt : Index.RepoFS :=
  Eval vm_compute in
    match Index.update_addons_xml tostring_tags digest_len Index.Written Index.Written repo_ok with
    | Monad.Ok _ s | Monad.Err _ s => s
    end.

End Scenarios.

(* ================================================================== *)
(** * Properties *)

(** ** Lemmas on the Python primitives *)

Module PyFacts.
Import Py.

Lemma list_ascii_of_string_app (a b : string) :
  list_ascii_of_string (a ++ b) = list_ascii_of_string a ++ list_ascii_of_string b.
Proof. induction a as [|c a IH]; simpl; [reflexivity | now rewrite IH]. Qed.

Lemma is_digit_not_space c : is_digit c = true -> isspace c = false.
Proof.
  unfold is_digit, isspace. intros H.
  apply andb_prop in H as [H1 H2].
  apply Nat.leb_le in H1. apply Nat.leb_le in H2.
  destruct (9 <=? nat_of_ascii c)%nat eqn:E1, (nat_of_ascii c <=? 13)%nat eqn:E2,
           (28 <=? nat_of_ascii c)%nat eqn:E3, (nat_of_ascii c <=? 32)%nat eqn:E4;
    simpl; try reflexivity;
    repeat match goal with
           | E : (_ <=? _)%nat = true |- _ => apply Nat.leb_le in E
           end; lia.
Qed.

Lemma is_digit_neq c d : is_digit c = true -> is_digit d = false -> Ascii.eqb c d = false.
Proof.
  intros H1 H2. destruct (Ascii.eqb_spec c d) as [->|]; [congruence | reflexivity].
Qed.

Lemma uint_chars_digits d : Forall (fun c => is_digit c = true) (uint_chars d).
Proof. induction d; simpl; constructor; auto. Qed.

Lemma to_uint_nonnil n : Nat.to_uint n <> Decimal.Nil.
Proof.
  rewrite <- (DecimalNat.Unsigned.of_to n), DecimalNat.Unsigned.to_of.
  unfold Decimal.unorm. destruct (Decimal.nzhead _); discriminate.
Qed.

Lemma int_digits_uint d acc :
  int_digits (Z.of_nat acc) true (uint_chars d) = Some (Z.of_nat (Nat.of_uint_acc d acc)).
Proof.
  revert acc.
  induction d; intros acc; simpl; try reflexivity;
    rewrite <- IHd; f_equal; rewrite ?Nat.tail_mul_spec;
    unfold digit_val; simpl; lia.
Qed.

Lemma int_digits_uint_start d acc :
  d <> Decimal.Nil ->
  int_digits (Z.of_nat acc) false (uint_chars d) = Some (Z.of_nat (Nat.of_uint_acc d acc)).
Proof.
  intros Hd. destruct d; [congruence| ..]; simpl;
    rewrite <- int_digits_uint; f_equal; rewrite ?Nat.tail_mul_spec;
    unfold digit_val; simpl; lia.
Qed.

Lemma lstrip_nonspace s : Forall (fun c => isspace c = false) s -> lstrip s = s.
Proof. intros H. destruct H as [|c s Hc _]; simpl; [reflexivity | now rewrite Hc]. Qed.

Lemma strip_nonspace s : Forall (fun c => isspace c = false) s -> strip s = s.
Proof.
  intros H. unfold strip, rstrip.
  rewrite (lstrip_nonspace (rev s)), rev_involutive by (apply Forall_rev; exact H).
  now apply lstrip_nonspace.
Qed.

Lemma nat_str_digits n : Forall (fun c => is_digit c = true) (nat_str n).
Proof. apply uint_chars_digits. Qed.

Lemma int_nat_str n : int (nat_str n) = Some (Z.of_nat n).
Proof.
  unfold int. rewrite strip_nonspace.
  2:{ eapply Forall_impl; [|apply nat_str_digits]. apply is_digit_not_space. }
  pose proof (nat_str_digits n) as Hd.
  unfold nat_str in *.
  destruct (uint_chars (Nat.to_uint n)) as [|c r] eqn:E.
  - destruct (Nat.to_uint n) eqn:Eu; simpl in E; try discriminate.
    exfalso; now apply (to_uint_nonnil n).
  - inversion Hd as [|? ? Hc _]; subst.
    rewrite (is_digit_neq c "-"), (is_digit_neq c "+") by (reflexivity || assumption).
    rewrite <- E. change 0%Z with (Z.of_nat 0).
    rewrite int_digits_uint_start by apply to_uint_nonnil.
    f_equal. f_equal. apply DecimalNat.Unsigned.of_to.
Qed.

Lemma z_str_succ m : z_str (Z.of_nat m + 1) = nat_str (m + 1).
Proof.
  unfold z_str. replace (Z.of_nat m + 1)%Z with (Z.of_nat (m + 1)) by lia.
  rewrite Nat2Z.id. destruct (Z.ltb_spec (Z.of_nat (m + 1)) 0); [lia | reflexivity].
Qed.

Lemma split_char_nonnil sep s : split_char sep s <> [].
Proof.
  destruct s as [|c s]; simpl; [discriminate|].
  destruct (Ascii.eqb c sep); [discriminate|].
  destruct (split_char sep s); discriminate.
Qed.

Lemma split_char_length sep s :
  length (split_char sep s) = S (count_occ ascii_dec s sep).
Proof.
  induction s as [|c s IH]; simpl; [reflexivity|].
  destruct (Ascii.eqb_spec c sep) as [->|Hne].
  - destruct (ascii_dec sep sep); [simpl; now rewrite IH | congruence].
  - destruct (ascii_dec c sep); [congruence|].
    pose proof (split_char_nonnil sep s).
    destruct (split_char sep s); [congruence | exact IH].
Qed.

Lemma dot_parts_count s :
  dot_parts s = S (count_occ ascii_dec (list_ascii_of_string s) "."%char).
Proof. apply split_char_length. Qed.

Lemma split_char_nosep sep p :
  Forall (fun c => Ascii.eqb c sep = false) p -> split_char sep p = [p].
Proof.
  induction 1 as [|c p Hc _ IH]; simpl; [reflexivity|].
  now rewrite Hc, IH.
Qed.

Lemma split_char_app sep p rest :
  Forall (fun c => Ascii.eqb c sep = false) p ->
  split_char sep (p ++ sep :: rest) = p :: split_char sep rest.
Proof.
  induction 1 as [|c p Hc _ IH]; simpl.
  - now rewrite Ascii.eqb_refl.
  - now rewrite Hc, IH.
Qed.

Lemma nat_str_no_dot n : Forall (fun c => Ascii.eqb c "."%char = false) (nat_str n).
Proof.
  eapply Forall_impl; [|apply nat_str_digits].
  intros c Hc. now apply is_digit_neq.
Qed.

Lemma count_nat_str n : count_occ ascii_dec (nat_str n) "."%char = 0%nat.
Proof.
  apply count_occ_not_In. intros Hin.
  pose proof (nat_str_no_dot n) as H. rewrite Forall_forall in H.
  specialize (H _ Hin). now rewrite Ascii.eqb_refl in H.
Qed.

End PyFacts.

(** ** Lemmas on the version decision *)

Module VersionFacts.
Import Py PyFacts Monad Release.

Lemma append_empty_r (s : string) : (s ++ "")%string = s.
Proof. induction s as [|c s IH]; simpl; [reflexivity | now rewrite IH]. Qed.

Lemma string_of_list_ascii_app (a b : list ascii) :
  string_of_list_ascii (a ++ b) = (string_of_list_ascii a ++ string_of_list_ascii b)%string.
Proof. induction a as [|c a IH]; simpl; [reflexivity | now rewrite IH]. Qed.

Lemma count_repeat_str k :
  count_occ ascii_dec (list_ascii_of_string (repeat_str k ".0")) "."%char = k.
Proof.
  induction k as [|k IH]; [reflexivity|].
  change (repeat_str (S k) ".0") with (".0" ++ repeat_str k ".0")%string.
  rewrite list_ascii_of_string_app, count_occ_app, IH. reflexivity.
Qed.

(** Padding gives exactly three components. *)
Lemma pad_version_parts v v' : pad_version v = Some v' -> dot_parts v' = 3%nat.
Proof.
  unfold pad_version. destruct (Nat.ltb_spec 3 (dot_parts v)) as [H|H];
    [discriminate|]. intros E; injection E as <-.
  pose proof (dot_parts_count v).
  rewrite dot_parts_count, list_ascii_of_string_app, count_occ_app, count_repeat_str.
  revert H H0. generalize (dot_parts v).
  intros n H H0; destruct n as [|[|[|[|n]]]]; lia.
Qed.

Lemma pad_version_short v : (dot_parts v <= 3)%nat ->
  pad_version v = Some (v ++ repeat_str (3 - dot_parts v) ".0")%string.
Proof.
  unfold pad_version. destruct (Nat.ltb_spec 3 (dot_parts v)); [lia | reflexivity].
Qed.

Lemma span_digits_spec s d r :
  StrictVersion.span_digits s = (d, r) ->
  s = d ++ r /\ count_occ ascii_dec d "."%char = 0%nat.
Proof.
  revert d r. induction s as [|c s IH]; intros d r E; simpl in E.
  - injection E as <- <-. split; reflexivity.
  - destruct (is_digit c) eqn:Hc.
    + destruct (StrictVersion.span_digits s) as [d' r'] eqn:E'.
      injection E as <- <-. destruct (IH _ _ eq_refl) as [-> Hd].
      split; [reflexivity|]. simpl.
      destruct (ascii_dec c "."); [subst; discriminate | exact Hd].
    + injection E as <- <-. split; reflexivity.
Qed.

Lemma opt_patch_count r p r' :
  StrictVersion.opt_patch r = (p, r') ->
  (count_occ ascii_dec r "."%char <= S (count_occ ascii_dec r' "."%char))%nat.
Proof.
  unfold StrictVersion.opt_patch. destruct r as [|c r0]; intros E.
  - injection E as <- <-. simpl. lia.
  - destruct (Ascii.eqb c ".") eqn:Hc.
    + destruct (StrictVersion.span_digits r0) as [d r1] eqn:Es.
      destruct (span_digits_spec _ _ _ Es) as [-> Hd].
      destruct d; injection E as <- <-.
      * simpl; lia.
      * apply Ascii.eqb_eq in Hc; subst c.
        rewrite count_occ_cons_eq by reflexivity.
        rewrite count_occ_app, Hd. simpl. lia.
    + injection E as <- <-. lia.
Qed.

Lemma opt_pre_count r p r' :
  StrictVersion.opt_pre r = (p, r') ->
  count_occ ascii_dec r "."%char = count_occ ascii_dec r' "."%char.
Proof.
  unfold StrictVersion.opt_pre. destruct r as [|c r0]; intros E.
  - now injection E as <- <-.
  - destruct (Ascii.eqb c "a" || Ascii.eqb c "b") eqn:Hc.
    + destruct (StrictVersion.span_digits r0) as [d r1] eqn:Es.
      destruct (span_digits_spec _ _ _ Es) as [-> Hd].
      destruct d; injection E as <- <-; [reflexivity|].
      rewrite count_occ_cons_neq by (intros Ec; rewrite Ec in Hc; discriminate Hc).
      rewrite count_occ_app, Hd. reflexivity.
    + now injection E as <- <-.
Qed.

Lemma at_end_count r : StrictVersion.at_end r = true -> count_occ ascii_dec r "."%char = 0%nat.
Proof.
  destruct r as [|c [|c' r]]; simpl; try discriminate; [reflexivity|].
  intros H. apply Ascii.eqb_eq in H; subst c. reflexivity.
Qed.

(** [StrictVersion] accepts only two or three numeric components. *)
Lemma parse_parts t x : StrictVersion.parse t = Some x -> (dot_parts t <= 3)%nat.
Proof.
  unfold StrictVersion.parse. rewrite dot_parts_count.
  destruct (StrictVersion.span_digits (list_ascii_of_string t)) as [d1 r1] eqn:E1.
  destruct (span_digits_spec _ _ _ E1) as [Hs Hd1]. rewrite Hs.
  destruct d1 as [|c1 d1]; [discriminate|].
  destruct r1 as [|c r2]; [discriminate|].
  destruct (Ascii.eqb c ".") eqn:Hc; [|discriminate].
  apply Ascii.eqb_eq in Hc; subst c.
  destruct (StrictVersion.span_digits r2) as [d2 r3] eqn:E2.
  destruct (span_digits_spec _ _ _ E2) as [-> Hd2].
  destruct d2 as [|c2 d2]; [discriminate|].
  destruct (StrictVersion.opt_patch r3) as [p r4] eqn:E3.
  destruct (StrictVersion.opt_pre r4) as [pre r5] eqn:E4.
  destruct (StrictVersion.at_end r5) eqn:E5; [|discriminate]. intros _.
  pose proof (opt_patch_count _ _ _ E3). pose proof (opt_pre_count _ _ _ E4).
  pose proof (at_end_count _ E5).
  rewrite count_occ_app, Hd1, count_occ_cons_eq by reflexivity.
  rewrite count_occ_app, Hd2. lia.
Qed.

End VersionFacts.

(** ** Lemmas on the runs of [update_addon] *)

Module RunFacts.
Import Xml Monad Release.

(** Case analysis on a run: split every [match] and [if] of a hypothesis,
    dropping the branches that contradict it. *)
Ltac split_run H :=
  repeat (simpl in H;
          match type of H with
          | context [match ?x with _ => _ end] =>
              lazymatch x with
              | context [match _ with _ => _ end] => fail
              | _ => let E := fresh "E" in destruct x eqn:E; try discriminate H
              end
          end).

Ltac unfold_run :=
  unfold Monad.bind, Monad.ret, Monad.raise, Monad.modify, Monad.gets, Monad.check.

(** Case analysis on every outcome of the packaging step. *)
Ltac package_cases env :=
  unfold package, rmtree, write_archive; unfold_run;
  destruct (env_icons_ok env), (env_rmtree_before env), (env_copytree env) as [|[]],
    (env_copy_xml_ok env), (env_archive env) as [|[]], (env_rmtree_after env),
    (env_latest env) as [|[]].

(** After the preparation, [addon.xml] is what [revert] left. *)
Lemma prepare_revert env tc st x st1 :
  prepare env tc st = Ok x st1 -> Some (st_addon_xml st1) = env_revert env.
Proof.
  unfold prepare, revert, read_baseline. unfold_run. intros H.
  split_run H; injection H as _ <-; simpl; congruence.
Qed.

(** Packaging never touches [addon.xml]. *)
Lemma package_addon_xml env addon v st :
  match package env addon v st with
  | Ok _ st' | Err _ st' => st_addon_xml st' = st_addon_xml st
  end.
Proof.
  destruct st as [x stg arch]. package_cases env; destruct stg; reflexivity.
Qed.

(** A successful [write_manifest] writes the source manifest with its
    version attribute set. *)
Lemma write_manifest_ok env v short cc st u st' :
  write_manifest env v short cc st = Ok u st' ->
  exists root meta,
    env_src_manifest env = Some (Parsed root) /\
    st_addon_xml st' =
      Some (Parsed (apply_defaults meta
                      (attr_update [("version", v); ("provider-name", PROVIDER)] root))).
Proof.
  unfold write_manifest. unfold_run. intros H.
  split_run H; injection H as _ <-; do 2 eexists; split; [reflexivity | reflexivity].
Qed.

Lemma attr_get_set_eq k v a : attr_get k (attr_set k v a) = Some v.
Proof.
  induction a as [|[k' v'] a IH]; simpl.
  - now rewrite String.eqb_refl.
  - destruct (String.eqb_spec k k') as [<-|Hne]; simpl.
    + now rewrite String.eqb_refl.
    + apply String.eqb_neq in Hne. now rewrite Hne.
Qed.

Lemma attr_get_set_neq k k' v a :
  k <> k' -> attr_get k (attr_set k' v a) = attr_get k a.
Proof.
  intros Hne. induction a as [|[k'' v''] a IH]; simpl.
  - apply String.eqb_neq in Hne. now rewrite Hne.
  - destruct (String.eqb_spec k' k'') as [<-|Hne']; simpl.
    + apply String.eqb_neq in Hne. now rewrite Hne.
    + now rewrite IH.
Qed.

Lemma apply_defaults_attrib meta root : attrib (apply_defaults meta root) = attrib root.
Proof. now destruct root. Qed.

(** The version attribute of the written manifest. *)
Lemma written_version meta v root :
  attr_get "version"
    (attrib (apply_defaults meta
               (attr_update [("version", v); ("provider-name", PROVIDER)] root)))
  = Some v.
Proof.
  rewrite apply_defaults_attrib. destruct root as [t a x c]. simpl.
  rewrite attr_get_set_neq by discriminate. apply attr_get_set_eq.
Qed.

Lemma or_default_some s d : s <> "" -> or_default (Some s) d = s.
Proof.
  intros H. unfold or_default. apply String.eqb_neq in H. now rewrite H.
Qed.

End RunFacts.

Module VersionRun.
Import Py PyFacts Xml Monad Release VersionFacts RunFacts.

Lemma pad_version_eq v v' :
  pad_version v = Some v' -> v' = (v ++ repeat_str (3 - dot_parts v) ".0")%string.
Proof.
  unfold pad_version. destruct (3 <? dot_parts v)%nat; [discriminate|].
  now injection 1.
Qed.

(** What [decide_version] returns: a padded version, the target itself in
    explicit mode. *)
Lemma decide_version_ok tv cv st v st' :
  decide_version tv cv st = Ok v st' ->
  st' = st /\ exists v0, pad_version v0 = Some v /\ (is_auto tv = false -> v0 = tv).
Proof.
  unfold decide_version. unfold_run. intros H.
  split_run H; injection H as <- <-; split; try reflexivity;
    eexists; (split; [eassumption|]); congruence.
Qed.

Lemma prepare_err_not_too_many env tc st e s :
  prepare env tc st = Err e s -> e <> VersionTooManyParts.
Proof.
  unfold prepare, revert, read_baseline. unfold_run. intros H.
  split_run H; injection H as <- _; discriminate.
Qed.

Lemma dot_parts_auto : dot_parts "AUTO" = 1%nat.
Proof. reflexivity. Qed.

Lemma dot_parts_empty : dot_parts "" = 1%nat.
Proof. reflexivity. Qed.

End VersionRun.

(* ================================================================== *)
(** ** The claims on [update_addon] *)

Module ReleaseClaims.
Import Py PyFacts Xml Monad Release VersionFacts RunFacts VersionRun Scenarios.

(** C1 (counterexample). An explicit target [1.4] below the baseline
    [1.4.0] fails with [VersionNotHigher], but [addon.xml] is not what it
    was before the run: its uncommitted edit was undone by [revert]. And
    with a requested commit that does not match, the failure is
    [CheckoutMismatch]. *)
Lemma C1_counterexample :
  (exists s, update_addon (env_release NEW true) "plugin.video.example" (Some "1.4") None st_dirty
             = Err VersionNotHigher s
          /\ st_addon_xml s <> st_addon_xml st_dirty)
  /\ (exists s, update_addon (env_release NEW true) "plugin.video.example" (Some "1.4")
                  (Some "origin/master") st_clean = Err CheckoutMismatch s).
Proof.
  split; eexists; [split; [reflexivity | discriminate] | reflexivity].
Qed.

(** C1 (amended). With an explicit target version [t] not above the
    baseline version [cv] read after the revert, [update_addon] fails
    without writing [addon.xml]: the error is [VersionNotHigher] when the
    requested commit was checked out ([CheckoutMismatch] otherwise), and
    the manifest is the one [revert] restored. *)
Theorem C1_explicit_not_higher (env : Env) (addon t : string) (tc : option string)
        (st st1 : State) (cv : string) (cc : option string) (commit : string)
        (a b : StrictVersion.t) :
  t <> "" -> t <> "AUTO" ->
  prepare env (or_default tc "HEAD") st = Ok (cv, cc, commit) st1 ->
  StrictVersion.parse t = Some a ->
  StrictVersion.parse cv = Some b ->
  StrictVersion.le a b = true ->
  update_addon env addon (Some t) tc st
    = Err (if pinned (or_default tc "HEAD") commit then VersionNotHigher
           else CheckoutMismatch) st1
  /\ Some (st_addon_xml st1) = env_revert env.
Proof.
  intros Hne Hna Hp Ha Hb Hle.
  split; [|exact (prepare_revert _ _ _ _ _ Hp)].
  unfold update_addon. rewrite (or_default_some t "AUTO" Hne).
  unfold Monad.bind. rewrite Hp.
  unfold check_commit. destruct (pinned (or_default tc "HEAD") commit); simpl;
    [|reflexivity].
  unfold is_auto. apply String.eqb_neq in Hna. rewrite Hna. simpl.
  unfold decide_version, is_auto, Monad.bind. rewrite Hna, Ha, Hb, Hle.
  reflexivity.
Qed.

(** C2 (counterexample). In automatic mode with the resolved commit equal
    to the baseline commit, the run fails with [AlreadyUpToDate] but the
    uncommitted edit of [addon.xml] is undone; with a requested commit that
    does not match, the failure is [CheckoutMismatch]. *)
Lemma C2_counterexample :
  (exists s, update_addon (env_release BASE true) "plugin.video.example" None None st_dirty
             = Err AlreadyUpToDate s
          /\ st_addon_xml s <> st_addon_xml st_dirty)
  /\ (exists s, update_addon (env_release BASE true) "plugin.video.example" None
                  (Some "origin/master") st_clean = Err CheckoutMismatch s).
Proof.
  split; eexists; [split; [reflexivity | discriminate] | reflexivity].
Qed.

(** C2 (amended). In automatic mode, when the resolved commit equals the
    baseline commit, [update_addon] fails with [AlreadyUpToDate] (with
    [CheckoutMismatch] when a requested commit did not match) and
    [addon.xml] is the one [revert] restored. *)
Theorem C2_auto_same_commit (env : Env) (addon : string) (tv tc : option string)
        (st st1 : State) (cv c commit : string) :
  or_default tv "AUTO" = "AUTO" ->
  prepare env (or_default tc "HEAD") st = Ok (cv, Some c, commit) st1 ->
  c = commit ->
  update_addon env addon tv tc st
    = Err (if pinned (or_default tc "HEAD") commit then AlreadyUpToDate
           else CheckoutMismatch) st1
  /\ Some (st_addon_xml st1) = env_revert env.
Proof.
  intros Hauto Hp <-.
  split; [|exact (prepare_revert _ _ _ _ _ Hp)].
  unfold update_addon. rewrite Hauto.
  unfold Monad.bind. rewrite Hp.
  unfold check_commit. destruct (pinned (or_default tc "HEAD") c); simpl;
    [|reflexivity].
  unfold same_commit. rewrite String.eqb_refl. reflexivity.
Qed.

(** C4 (counterexample). The explicit target [1.5] is written as [1.5.0]:
    three components, not four. *)
Lemma C4_counterexample :
  match update_addon (env_release NEW true) "plugin.video.example" (Some "1.5") None st_clean with
  | Ok _ s =>
      match st_addon_xml s with
      | Some (Parsed root) => attr_get "version" (attrib root)
      | _ => None
      end
  | Err _ _ => None
  end = Some "1.5.0"
  /\ dot_parts "1.5.0" = 3%nat.
Proof. split; vm_compute; reflexivity. Qed.

(** C4 (amended). Every successful run writes a manifest whose version has
    exactly three dot-separated components; an explicit target is padded
    with [.0] components up to three, and nothing more is appended. *)
Theorem C4_written_version_three_parts (env : Env) (addon : string)
        (tv tc : option string) (st st' : State) :
  update_addon env addon tv tc st = Ok tt st' ->
  exists root v,
    st_addon_xml st' = Some (Parsed root)
    /\ attr_get "version" (attrib root) = Some v
    /\ dot_parts v = 3%nat
    /\ (is_auto (or_default tv "AUTO") = false ->
        v = (or_default tv "AUTO"
             ++ repeat_str (3 - dot_parts (or_default tv "AUTO")) ".0")%string).
Proof.
  unfold update_addon, Monad.bind. intros H.
  destruct (prepare env (or_default tc "HEAD") st) as [[[cv cc] commit] s1 | e s1];
    [|discriminate].
  destruct (check_commit (or_default tv "AUTO") (or_default tc "HEAD") cc commit s1)
    as [u s2 | e s2]; [|discriminate].
  destruct (decide_version (or_default tv "AUTO") cv s2) as [v s3 | e s3] eqn:Ed;
    [|discriminate].
  destruct (write_manifest env v (substring 0 7 commit) cc s3) as [u' s4 | e s4] eqn:Ew;
    [|discriminate].
  pose proof (package_addon_xml env addon v s4) as Hpk. rewrite H in Hpk.
  destruct (write_manifest_ok _ _ _ _ _ _ _ Ew) as [root [meta [_ Hx]]].
  destruct (decide_version_ok _ _ _ _ _ Ed) as [_ [v0 [Hpad Hex]]].
  eexists; exists v. split; [rewrite Hpk; exact Hx|].
  split; [apply written_version|].
  split; [exact (pad_version_parts _ _ Hpad)|].
  intros Hna. rewrite <- (Hex Hna). exact (pad_version_eq _ _ Hpad).
Qed.

(** C5 (counterexample). The explicit target [1.5.0.1] is rejected by the
    version parser with [InvalidVersion], not with [VersionTooManyParts]. *)
Lemma C5_counterexample :
  dot_parts "1.5.0.1" = 4%nat
  /\ exists s, update_addon (env_release NEW true) "plugin.video.example" (Some "1.5.0.1") None
                 st_clean = Err InvalidVersion s.
Proof. split; [reflexivity | eexists; reflexivity]. Qed.

(** C5 (amended). An explicit target with more than three components never
    succeeds and never fails with [VersionTooManyParts]: once the version
    decision is reached, it is rejected by [StrictVersion] with
    [InvalidVersion], and [addon.xml] is left as [revert] restored it. *)
Theorem C5_explicit_too_many_parts (env : Env) (addon t : string) (tc : option string)
        (st : State) :
  (3 < dot_parts t)%nat ->
  exists e st',
    update_addon env addon (Some t) tc st = Err e st'
    /\ e <> VersionTooManyParts
    /\ (forall cv cc commit st1,
          prepare env (or_default tc "HEAD") st = Ok (cv, cc, commit) st1 ->
          pinned (or_default tc "HEAD") commit = true ->
          e = InvalidVersion /\ st' = st1).
Proof.
  intros Hparts.
  assert (Hne : t <> "") by (intros ->; rewrite dot_parts_empty in Hparts; lia).
  assert (Hna : is_auto t = false)
    by (apply String.eqb_neq; intros ->; rewrite dot_parts_auto in Hparts; lia).
  assert (Hparse : StrictVersion.parse t = None).
  { destruct (StrictVersion.parse t) eqn:E; [|reflexivity].
    apply parse_parts in E. lia. }
  unfold update_addon. rewrite (or_default_some t "AUTO" Hne).
  unfold Monad.bind.
  destruct (prepare env (or_default tc "HEAD") st) as [[[cv cc] commit] s1 | e s1] eqn:Hp.
  - unfold check_commit. rewrite Hna. simpl.
    destruct (pinned (or_default tc "HEAD") commit) eqn:Hpin; simpl.
    + unfold decide_version, Monad.bind. rewrite Hna, Hparse.
      do 2 eexists. split; [reflexivity|]. split; [discriminate|].
      intros cv' cc' commit' st1 Hp' _. injection Hp' as _ _ _ <-. now split.
    + do 2 eexists. split; [reflexivity|]. split; [discriminate|].
      intros cv' cc' commit' st1 Hp' Hpin'. injection Hp' as _ _ <- _. congruence.
  - do 2 eexists. split; [reflexivity|].
    split; [exact (prepare_err_not_too_many _ _ _ _ _ Hp)|].
    intros ? ? ? ? Hp'. discriminate Hp'.
Qed.

(** C9. In automatic mode the baseline [major.minor.patch] becomes
    [major.(minor+1).0], in decimal, with no carry into [major]. *)
Theorem C9_auto_bump_minor (major minor patch : nat) (st : State) :
  decide_version "AUTO" (dec major ++ "." ++ dec minor ++ "." ++ dec patch) st
  = Ok (dec major ++ "." ++ dec (minor + 1) ++ ".0")%string st.
Proof.
  unfold decide_version, auto_bump, Monad.bind.
  change (is_auto "AUTO") with true. cbv iota beta.
  rewrite !list_ascii_of_string_app. unfold dec.
  rewrite !list_ascii_of_string_of_list_ascii.
  change (list_ascii_of_string ".") with ["."%char]. cbn [app].
  rewrite (split_char_app _ _ _ (nat_str_no_dot major)).
  rewrite (split_char_app _ _ _ (nat_str_no_dot minor)).
  rewrite (split_char_nosep _ _ (nat_str_no_dot patch)).
  rewrite int_nat_str, z_str_succ.
  set (v := string_of_list_ascii _).
  assert (Hv : v = (string_of_list_ascii (nat_str major) ++ "."
                    ++ string_of_list_ascii (nat_str (minor + 1)) ++ ".0")%string).
  { unfold v. rewrite string_of_list_ascii_app.
    cbn [string_of_list_ascii String.append].
    rewrite string_of_list_ascii_app. reflexivity. }
  assert (Hp : dot_parts v = 3%nat).
  { rewrite Hv, dot_parts_count, !list_ascii_of_string_app,
      !list_ascii_of_string_of_list_ascii.
    change (list_ascii_of_string ".") with ["."%char].
    change (list_ascii_of_string ".0") with ["."%char; "0"%char].
    rewrite !count_occ_app, !count_nat_str. reflexivity. }
  unfold Monad.ret. cbv beta iota.
  rewrite pad_version_short by lia. rewrite Hp. simpl repeat_str.
  rewrite append_empty_r. now rewrite Hv.
Qed.

Example C9_example_1_4_0 : auto_bump "1.4.0" = Some "1.5.0".
Proof. reflexivity. Qed.

Example C9_example_2_9_0 : auto_bump "2.9.0" = Some "2.10.0".
Proof. reflexivity. Qed.

End ReleaseClaims.

Module ReleaseWitnesses.
Import Xml Monad Release ReleaseClaims Scenarios.

Lemma C1_witness :
  update_addon (env_release NEW true) "plugin.video.example" (Some "1.4") None st_clean
    = Err VersionNotHigher st_clean
  /\ Some (st_addon_xml st_clean) = env_revert (env_release NEW true).
Proof.
  exact (C1_explicit_not_higher (env_release NEW true) "plugin.video.example" "1.4" None
           st_clean st_clean "1.4.0" (Some BASE) NEW
           (StrictVersion.mk (1, 4, 0)%Z None) (StrictVersion.mk (1, 4, 0)%Z None)
           ltac:(discriminate) ltac:(discriminate) ltac:(reflexivity)
           ltac:(reflexivity) ltac:(reflexivity) ltac:(reflexivity)).
Defined.

Lemma C2_witness :
  update_addon (env_release BASE true) "plugin.video.example" None None st_clean
    = Err AlreadyUpToDate st_clean
  /\ Some (st_addon_xml st_clean) = env_revert (env_release BASE true).
Proof.
  exact (C2_auto_same_commit (env_release BASE true) "plugin.video.example" None None
           st_clean st_clean "1.4.0" BASE BASE
           ltac:(reflexivity) ltac:(reflexivity) ltac:(reflexivity)).
Defined.

Lemma C4_witness :
  exists root v,
    st_addon_xml st_released = Some (Parsed root)
    /\ attr_get "version" (attrib root) = Some v
    /\ Py.dot_parts v = 3%nat
    /\ (is_auto (or_default (Some "1.5") "AUTO") = false ->
        v = (or_default (Some "1.5") "AUTO"
             ++ repeat_str (3 - Py.dot_parts (or_default (Some "1.5") "AUTO")) ".0")%string).
Proof.
  exact (C4_written_version_three_parts (env_release NEW true) "plugin.video.example"
           (Some "1.5") None st_clean st_released ltac:(vm_compute; reflexivity)).
Defined.

Lemma C5_witness :
  exists e st',
    update_addon (env_release NEW true) "plugin.video.example" (Some "1.5.0.1") None st_clean
      = Err e st'
    /\ e <> VersionTooManyParts
    /\ (forall cv cc commit st1,
          prepare (env_release NEW true) (or_default None "HEAD") st_clean
            = Ok (cv, cc, commit) st1 ->
          pinned (or_default None "HEAD") commit = true ->
          e = InvalidVersion /\ st' = st1).
Proof.
  exact (C5_explicit_too_many_parts (env_release NEW true) "plugin.video.example" "1.5.0.1"
           None st_clean ltac:(apply Nat.ltb_lt; reflexivity)).
Defined.

End ReleaseWitnesses.

(* ================================================================== *)
(** ** The metadata defaults *)

Module MetadataClaims.
Import Xml XmlSpec Release Scenarios.

Lemma find_update_same p f l :
  (forall n, p (f n) = p n) ->
  find_child p (update_first p f l) = option_map f (find_child p l).
Proof.
  intros Hf. induction l as [|n l IH]; simpl; [reflexivity|].
  destruct (p n) eqn:Hp; simpl.
  - now rewrite Hf, Hp.
  - now rewrite Hp.
Qed.

Lemma find_update_other k k' f l :
  k <> k' ->
  (forall n, tag (f n) = tag n) ->
  find_child (has_tag k) (update_first (has_tag k') f l) = find_child (has_tag k) l.
Proof.
  intros Hne Hf. induction l as [|n l IH]; simpl; [reflexivity|].
  destruct (has_tag k' n) eqn:Hk'; simpl.
  - unfold has_tag in *. rewrite Hf.
    apply String.eqb_eq in Hk'. rewrite Hk'.
    destruct (String.eqb_spec k' k); [congruence | reflexivity].
  - now rewrite IH.
Qed.

(** The function applied to the first child named [key]. *)
Definition fill_child (value : string) (n : node) : node :=
  if text_empty n then set_text value n else n.

Lemma fill_child_tag v n : tag (fill_child v n) = tag n.
Proof. unfold fill_child. destruct (text_empty n); [now destruct n | reflexivity]. Qed.

Lemma fill_key_children k v m :
  children (fill_key k v m) = update_first (has_tag k) (fill_child v) (children m).
Proof. now destruct m. Qed.

Lemma fill_defaults_is_metadata d m : is_metadata (fill_defaults d m) = is_metadata m.
Proof.
  revert m. induction d as [|[k v] d IH]; intros m; simpl; [reflexivity|].
  rewrite IH. now destruct m.
Qed.

Lemma find_fill_key_same k v m :
  find_child (has_tag k) (children (fill_key k v m))
  = option_map (fill_child v) (find_child (has_tag k) (children m)).
Proof.
  rewrite fill_key_children. apply find_update_same.
  intros n. unfold has_tag. now rewrite fill_child_tag.
Qed.

Lemma find_fill_key_other k k' v m :
  k <> k' ->
  find_child (has_tag k) (children (fill_key k' v m)) = find_child (has_tag k) (children m).
Proof.
  intros Hne. rewrite fill_key_children. apply find_update_other; [exact Hne|].
  apply fill_child_tag.
Qed.

Lemma length_update_first p f l : length (update_first p f l) = length l.
Proof. induction l as [|n l IH]; simpl; [reflexivity|]. destruct (p n); simpl; congruence. Qed.

Lemma is_first_cons_false p n l i :
  p n = false -> is_first p (n :: l) (S i) = is_first p l i.
Proof.
  intros Hp. unfold is_first. simpl. rewrite Hp.
  destruct (find_index p l); reflexivity.
Qed.

(** Child [i] after [update_first]: changed exactly when it is the first
    one satisfying [p]. *)
Lemma nth_update_first p f l i :
  nth_error (update_first p f l) i
  = option_map (fun n => if is_first p l i then f n else n) (nth_error l i).
Proof.
  revert i. induction l as [|n l IH]; intros i; simpl.
  - destruct i; reflexivity.
  - destruct (p n) eqn:Hp.
    + unfold is_first. simpl. rewrite Hp.
      destruct i; simpl; [reflexivity | destruct (nth_error l i); reflexivity].
    + destruct i as [|i].
      * unfold is_first. simpl. rewrite Hp.
        destruct (find_index p l); reflexivity.
      * simpl. rewrite is_first_cons_false by exact Hp. apply IH.
Qed.

Lemma find_index_update q p f l :
  (forall n, q (f n) = q n) -> find_index q (update_first p f l) = find_index q l.
Proof.
  intros Hf. induction l as [|n l IH]; simpl; [reflexivity|].
  destruct (p n); simpl; [now rewrite Hf | now rewrite IH].
Qed.

Lemma is_first_true p l i n :
  is_first p l i = true -> nth_error l i = Some n -> p n = true.
Proof.
  revert i. induction l as [|x l IH]; intros i Hf Hn; [destruct i; discriminate|].
  unfold is_first in Hf. simpl in Hf. destruct (p x) eqn:Hp.
  - destruct i; [simpl in Hn; congruence | discriminate].
  - destruct i as [|i].
    + destruct (find_index p l); discriminate.
    + simpl in Hn. apply (IH i); [|exact Hn].
      unfold is_first. destruct (find_index p l); exact Hf.
Qed.

Lemma is_first_fill k k' v l i :
  is_first (has_tag k) (update_first (has_tag k') (fill_child v) l) i = is_first (has_tag k) l i.
Proof.
  unfold is_first. rewrite find_index_update; [reflexivity|].
  intros n. unfold has_tag. now rewrite fill_child_tag.
Qed.

Lemma is_first_tag k l i n :
  is_first (has_tag k) l i = true -> nth_error l i = Some n -> tag n = k.
Proof. intros H1 H2. apply String.eqb_eq. exact (is_first_true _ _ _ _ H1 H2). Qed.

Lemma fill_defaults_shape d m :
  tag (fill_defaults d m) = tag m /\ attrib (fill_defaults d m) = attrib m
  /\ text (fill_defaults d m) = text m
  /\ length (children (fill_defaults d m)) = length (children m).
Proof.
  revert m. induction d as [|[k v] d IH]; intros m; [now repeat split|].
  simpl. destruct (IH (fill_key k v m)) as (H1 & H2 & H3 & H4).
  rewrite H1, H2, H3, H4. destruct m as [t a x c]. simpl.
  rewrite length_update_first. now repeat split.
Qed.

(** Child [i] of the metadata node after filling the defaults. *)
Lemma fill_defaults_nth news m i n :
  nth_error (children m) i = Some n ->
  nth_error (children (fill_defaults (default_meta news) m)) i
  = Some (match attr_get (tag n) (default_meta news) with
          | Some v => if is_first (has_tag (tag n)) (children m) i && text_empty n
                      then set_text v n else n
          | None => n
          end).
Proof.
  intros Hn. unfold default_meta. cbn [fill_defaults fold_left].
  rewrite !fill_key_children, !nth_update_first, !is_first_fill, Hn.
  cbn [option_map attr_get].
  set (c := children m) in *.
  destruct (String.eqb_spec (tag n) "license") as [Ht|Ht];
    [|destruct (String.eqb_spec (tag n) "website") as [Ht'|Ht'];
      [|destruct (String.eqb_spec (tag n) "news") as [Ht''|Ht'']]];
    repeat match goal with
    | |- context [is_first (has_tag ?k) c i] =>
        let E := fresh "E" in
        destruct (is_first (has_tag k) c i) eqn:E;
        [pose proof (is_first_tag _ _ _ _ E Hn); try congruence|]
    end;
    unfold fill_child; try rewrite Ht in *; try rewrite Ht' in *; try rewrite Ht'' in *;
    cbn [andb]; try congruence;
    repeat match goal with
    | E : is_first _ _ _ = _ |- _ => rewrite E
    end; cbn [andb]; reflexivity.
Qed.

(** C3 (counterexample). A whitespace-only [website] is kept, and the
    absent [news] child is not created: the manifest is left as it was. *)
Lemma C3_counterexample :
  apply_defaults (default_meta "1.5.0 #8d4e6f0 (18/10/2026)") sparse = sparse.
Proof. vm_compute. reflexivity. Qed.

(** C3 (amended). Filling the defaults changes only the metadata extension
    node: the root keeps its tag, attributes, text and number of children,
    and every child other than the first metadata extension node is
    unchanged. In that node, which keeps its tag, attributes, text and
    number of children, for each default key, the first child with that
    tag gets the default text if its text is empty (none or [""]), keeps
    its text verbatim otherwise (also whitespace-only text), and an absent
    child stays absent; every other child, also a later child with the
    same tag, is unchanged. *)
Theorem C3_fill_defaults_per_key (news : string) (root : node) (k v : string) :
  In (k, v) (default_meta news) ->
  find_child is_metadata (children (apply_defaults (default_meta news) root))
    = option_map (fill_defaults (default_meta news)) (find_child is_metadata (children root))
  /\ (forall m,
       find_child (has_tag k) (children (fill_defaults (default_meta news) m))
       = option_map (fun n => if text_empty n then set_text v n else n)
                    (find_child (has_tag k) (children m)))
  /\ tag (apply_defaults (default_meta news) root) = tag root
  /\ attrib (apply_defaults (default_meta news) root) = attrib root
  /\ text (apply_defaults (default_meta news) root) = text root
  /\ length (children (apply_defaults (default_meta news) root)) = length (children root)
  /\ (forall i n,
       nth_error (children root) i = Some n ->
       nth_error (children (apply_defaults (default_meta news) root)) i
       = Some (if XmlSpec.is_first is_metadata (children root) i
               then fill_defaults (default_meta news) n else n))
  /\ (forall m,
       tag (fill_defaults (default_meta news) m) = tag m
       /\ attrib (fill_defaults (default_meta news) m) = attrib m
       /\ text (fill_defaults (default_meta news) m) = text m
       /\ length (children (fill_defaults (default_meta news) m)) = length (children m)
       /\ forall i n,
            nth_error (children m) i = Some n ->
            nth_error (children (fill_defaults (default_meta news) m)) i
            = Some (match attr_get (tag n) (default_meta news) with
                    | Some v' => if XmlSpec.is_first (has_tag (tag n)) (children m) i
                                    && text_empty n
                                 then set_text v' n else n
                    | None => n
                    end)).
Proof.
  intros Hin. split; [|split; [|split; [|split; [|split; [|split; [|split]]]]]].
  - destruct root as [t a x c]. simpl children.
    apply find_update_same. apply fill_defaults_is_metadata.
  - intros m. change (fun n => if text_empty n then set_text v n else n) with (fill_child v).
    unfold default_meta in *. simpl fill_defaults.
    destruct Hin as [E | [E | [E | []]]]; injection E as <- <-.
    + rewrite !find_fill_key_other by discriminate. apply find_fill_key_same.
    + rewrite find_fill_key_other by discriminate. rewrite find_fill_key_same.
      now rewrite find_fill_key_other by discriminate.
    + rewrite find_fill_key_same.
      now rewrite !find_fill_key_other by discriminate.
  - now destruct root.
  - now destruct root.
  - now destruct root.
  - destruct root as [t a x c]. apply length_update_first.
  - intros i n Hn. destruct root as [t a x c]. simpl children in *.
    rewrite nth_update_first, Hn. reflexivity.
  - intros m. destruct (fill_defaults_shape (default_meta news) m) as (H1 & H2 & H3 & H4).
    repeat split; try assumption. apply fill_defaults_nth.
Qed.

Lemma C3_witness :
  find_child is_metadata (children (apply_defaults (default_meta "n") committed))
    = option_map (fill_defaults (default_meta "n")) (find_child is_metadata (children committed))
  /\ (forall m,
       find_child (has_tag "license") (children (fill_defaults (default_meta "n") m))
       = option_map (fun n => if text_empty n then set_text "GNU General Public License, v2" n else n)
                    (find_child (has_tag "license") (children m)))
  /\ tag (apply_defaults (default_meta "n") committed) = tag committed
  /\ attrib (apply_defaults (default_meta "n") committed) = attrib committed
  /\ text (apply_defaults (default_meta "n") committed) = text committed
  /\ length (children (apply_defaults (default_meta "n") committed)) = length (children committed)
  /\ (forall i n,
       nth_error (children committed) i = Some n ->
       nth_error (children (apply_defaults (default_meta "n") committed)) i
       = Some (if XmlSpec.is_first is_metadata (children committed) i
               then fill_defaults (default_meta "n") n else n))
  /\ (forall m,
       tag (fill_defaults (default_meta "n") m) = tag m
       /\ attrib (fill_defaults (default_meta "n") m) = attrib m
       /\ text (fill_defaults (default_meta "n") m) = text m
       /\ length (children (fill_defaults (default_meta "n") m)) = length (children m)
       /\ forall i n,
            nth_error (children m) i = Some n ->
            nth_error (children (fill_defaults (default_meta "n") m)) i
            = Some (match attr_get (tag n) (default_meta "n") with
                    | Some v' => if XmlSpec.is_first (has_tag (tag n)) (children m) i
                                    && text_empty n
                                 then set_text v' n else n
                    | None => n
                    end)).
Proof.
  exact (C3_fill_defaults_per_key "n" committed "license" "GNU General Public License, v2"
           ltac:(simpl; left; reflexivity)).
Defined.

End MetadataClaims.

(* ================================================================== *)
(** ** The changelog *)

Module ChangelogClaims.
Import Py PyFacts Text GitLog Release.

Lemma split_blank_step c s :
  Ascii.eqb c nl && match s with c2 :: _ => Ascii.eqb c2 nl | [] => false end = false ->
  split_blank (c :: s) = cons_head c (split_blank s).
Proof.
  intros H. destruct s as [|c2 s']; simpl; destruct (Ascii.eqb c nl);
    simpl in H; try reflexivity; rewrite H; reflexivity.
Qed.

Lemma split_blank_para p rest :
  splittable p = true -> split_blank (p ++ nl :: nl :: rest) = p :: split_blank rest.
Proof.
  induction p as [|c p IH]; intros Hs; [reflexivity|].
  destruct p as [|c2 p].
  - simpl in Hs. apply negb_true_iff in Hs.
    change ([c] ++ nl :: nl :: rest) with (c :: nl :: nl :: rest).
    rewrite split_blank_step by (rewrite Hs; reflexivity). reflexivity.
  - change (splittable (c :: c2 :: p))
      with (negb (Ascii.eqb c nl && Ascii.eqb c2 nl) && splittable (c2 :: p)) in Hs.
    apply andb_prop in Hs as [Hc Hs]. apply negb_true_iff in Hc.
    change ((c :: c2 :: p) ++ nl :: nl :: rest) with (c :: ((c2 :: p) ++ nl :: nl :: rest)).
    rewrite split_blank_step by exact Hc.
    rewrite (IH Hs). reflexivity.
Qed.

Lemma split_blank_single p : splittable p = true -> split_blank p = [p].
Proof.
  induction p as [|c p IH]; intros Hs; [reflexivity|].
  destruct p as [|c2 p].
  - simpl in Hs. apply negb_true_iff in Hs.
    rewrite split_blank_step by (rewrite Hs; reflexivity). reflexivity.
  - change (splittable (c :: c2 :: p))
      with (negb (Ascii.eqb c nl && Ascii.eqb c2 nl) && splittable (c2 :: p)) in Hs.
    apply andb_prop in Hs as [Hc Hs]. apply negb_true_iff in Hc.
    rewrite split_blank_step by exact Hc.
    rewrite (IH Hs). reflexivity.
Qed.

Lemma split_join ps :
  ps <> [] -> Forall (fun p => splittable p = true) ps ->
  split_blank (join [nl; nl] ps) = ps.
Proof.
  induction ps as [|p ps IH]; intros Hne Hall; [congruence|].
  inversion Hall as [|? ? Hp Hps]; subst.
  destruct ps as [|q qs].
  - apply split_blank_single. exact Hp.
  - change (join [nl; nl] (p :: q :: qs)) with (p ++ nl :: nl :: join [nl; nl] (q :: qs)).
    rewrite split_blank_para by exact Hp.
    rewrite IH; [reflexivity | discriminate | exact Hps].
Qed.

Lemma join_app sep a b :
  a <> [] -> b <> [] -> join sep (a ++ b) = join sep a ++ sep ++ join sep b.
Proof.
  intros Ha Hb. induction a as [|x a IH]; [congruence|].
  destruct a as [|y a].
  - simpl. destruct b; [congruence | reflexivity].
  - change ((x :: y :: a) ++ b) with (x :: ((y :: a) ++ b)).
    change (join sep (x :: (y :: a) ++ b)) with (x ++ sep ++ join sep ((y :: a) ++ b)).
    rewrite IH by discriminate.
    change (join sep (x :: y :: a)) with (x ++ sep ++ join sep (y :: a)).
    now rewrite !app_assoc.
Qed.

Lemma concat_nonnil (msgs : list message) :
  msgs <> [] -> Forall (fun m => m <> []) msgs -> concat msgs <> [].
Proof.
  intros Hne Hall. destruct msgs as [|m ms]; [congruence|].
  inversion Hall; subst. simpl. destruct m; [congruence | discriminate].
Qed.

Lemma output_join msgs :
  msgs <> [] -> Forall (fun m => m <> []) msgs ->
  output msgs = join [nl; nl] (concat msgs) ++ [nl; nl].
Proof.
  unfold output. induction msgs as [|m ms IH]; intros Hne Hall; [congruence|].
  inversion Hall as [|? ? Hm Hms]; subst.
  destruct ms as [|m2 ms].
  - simpl. now rewrite !app_nil_r.
  - rewrite map_cons, concat_cons. rewrite IH by (discriminate || exact Hms).
    rewrite (concat_cons m (m2 :: ms)).
    rewrite join_app by (exact Hm || (apply concat_nonnil; [discriminate | exact Hms])).
    now rewrite !app_assoc.
Qed.

Lemma para_ok_parts p : para_ok p = true -> splittable p = true /\ head_ok (rev p).
Proof.
  unfold para_ok. intros H. apply andb_prop in H as [H1 H2]. split; [exact H1|].
  destruct (rev p) as [|c r]; [discriminate|]. simpl. now apply negb_true_iff.
Qed.

Lemma strip_last P : head_ok (rev P) -> strip (P ++ [nl; nl]) = lstrip P.
Proof.
  intros Hl. unfold strip, rstrip.
  rewrite rev_app_distr. simpl rev at 2. simpl app. simpl lstrip.
  destruct (rev P) as [|c r] eqn:Er; [contradiction|].
  simpl in Hl. simpl lstrip. rewrite Hl. rewrite <- Er, rev_involutive. reflexivity.
Qed.

Lemma lstrip_app p r : head_ok (rev p) -> lstrip (p ++ r) = lstrip p ++ r.
Proof.
  induction p as [|c p IH]; intros H; [contradiction|].
  simpl. destruct (isspace c) eqn:Hc; [|reflexivity].
  apply IH. simpl in H. destruct (rev p) as [|d q]; [simpl in H; congruence | exact H].
Qed.

Lemma splittable_tail c p : splittable (c :: p) = true -> splittable p = true.
Proof.
  destruct p as [|c2 p]; [reflexivity|]. intros H.
  change (negb (Ascii.eqb c nl && Ascii.eqb c2 nl) && splittable (c2 :: p) = true) in H.
  now apply andb_prop in H as [_ H].
Qed.

Lemma splittable_lstrip p : splittable p = true -> splittable (lstrip p) = true.
Proof.
  induction p as [|c p IH]; intros H; [reflexivity|]. simpl.
  destruct (isspace c); [apply IH; exact (splittable_tail c p H) | exact H].
Qed.

Lemma join_last ps :
  ps <> [] -> Forall (fun p => para_ok p = true) ps -> head_ok (rev (join [nl; nl] ps)).
Proof.
  induction ps as [|p ps IH]; intros Hne Hall; [congruence|].
  inversion Hall as [|? ? Hp Hps]; subst.
  destruct ps as [|q qs].
  - exact (proj2 (para_ok_parts p Hp)).
  - change (join [nl; nl] (p :: q :: qs)) with (p ++ [nl; nl] ++ join [nl; nl] (q :: qs)).
    pose proof (IH ltac:(discriminate) Hps) as Hr.
    rewrite !rev_app_distr. destruct (rev (join [nl; nl] (q :: qs))); [contradiction|].
    exact Hr.
Qed.

Lemma lstrip_join ps :
  ps <> [] -> Forall (fun p => para_ok p = true) ps ->
  lstrip (join [nl; nl] ps) = join [nl; nl] (strip_first ps).
Proof.
  intros Hne Hall. destruct ps as [|p [|q qs]]; [congruence | reflexivity|].
  inversion Hall as [|? ? Hp _]; subst.
  change (join [nl; nl] (p :: q :: qs)) with (p ++ [nl; nl] ++ join [nl; nl] (q :: qs)).
  rewrite lstrip_app by exact (proj2 (para_ok_parts p Hp)). reflexivity.
Qed.

(** C6 (counterexample). A commit message with two paragraphs gives two
    [- ] entries, not one line with its first paragraph. *)
Lemma C6_counterexample :
  let out := output [[list_ascii_of_string "Fix playback";
                      list_ascii_of_string "Seek works again"]] in
  changelog (string_of_list_ascii out)
    = ("- Fix playback" ++ String nl "- Seek works again")%string
  /\ changelog (string_of_list_ascii out) <> "- Fix playback".
Proof. split; vm_compute; [reflexivity | discriminate]. Qed.

(** C6 (amended). For the messages the log returns, newest first, the
    changelog is ["- "] followed by every paragraph of every message,
    joined by a newline and ["- "]: each paragraph is an entry of its own,
    and only the first one loses its leading whitespace, to [strip]. The
    range is [<oldCommit>..<short new commit>] when a baseline commit is
    known, else the literal [-1]. *)
Theorem C6_changelog_entries (msgs : list message) (c short : string) :
  Forall (fun m => m <> [] /\ Forall (fun p => para_ok p = true) m) msgs ->
  changelog (string_of_list_ascii (output msgs))
    = string_of_list_ascii (["-"%char; " "%char]
                            ++ join [nl; "-"%char; " "%char] (strip_first (concat msgs)))
  /\ (c <> "" -> comp_range (Some c) short = (c ++ ".." ++ short)%string)
  /\ comp_range None short = "-1".
Proof.
  intros Hall.
  split; [|split].
  - destruct msgs as [|m0 ms0]; [reflexivity|].
    assert (Hne : m0 :: ms0 <> []) by discriminate.
    set (msgs := m0 :: ms0) in *.
    assert (Hm : Forall (fun m => m <> []) msgs)
      by (eapply Forall_impl; [|exact Hall]; intros m [H _]; exact H).
    assert (Hp : Forall (fun p => para_ok p = true) (concat msgs)).
    { apply Forall_concat. eapply Forall_impl; [|exact Hall]. intros m [_ H]; exact H. }
    assert (Hc : concat msgs <> []) by (apply concat_nonnil; assumption).
    unfold changelog. rewrite list_ascii_of_string_of_list_ascii.
    rewrite output_join by assumption.
    rewrite strip_last by exact (join_last _ Hc Hp).
    rewrite lstrip_join by assumption.
    rewrite split_join; [reflexivity| |].
    + destruct (concat msgs); [congruence | discriminate].
    + destruct (concat msgs) as [|p ps]; [congruence|].
      inversion Hp as [|? ? Hp1 Hps]; subst. simpl. constructor.
      * apply splittable_lstrip. exact (proj1 (para_ok_parts p Hp1)).
      * eapply Forall_impl; [|exact Hps]. intros q Hq. exact (proj1 (para_ok_parts q Hq)).
  - intros Hne'. unfold comp_range. apply String.eqb_neq in Hne'. now rewrite Hne'.
  - reflexivity.
Qed.

Lemma C6_witness :
  changelog (string_of_list_ascii (output Scenarios.log_msgs))
    = string_of_list_ascii (["-"%char; " "%char]
                            ++ join [nl; "-"%char; " "%char]
                                    (strip_first (concat Scenarios.log_msgs)))
  /\ ("3f2a9c1" <> "" -> comp_range (Some "3f2a9c1") "8d4e6f0" = ("3f2a9c1" ++ ".." ++ "8d4e6f0")%string)
  /\ comp_range None "8d4e6f0" = "-1".
Proof.
  exact (C6_changelog_entries Scenarios.log_msgs "3f2a9c1" "8d4e6f0"
           ltac:(repeat constructor; vm_compute; (discriminate || reflexivity))).
Defined.

End ChangelogClaims.

(* ================================================================== *)
(** ** The repository index *)

Module IndexClaims.
Import Xml Monad Index IndexSpec.

(** The loop over [get_addons()] returns the parsed roots in listing
    order, or raises at the first malformed manifest, and leaves the
    repository as it was. *)
Lemma collect_addons es fs :
  collect (get_addons es) fs =
    if has_malformed es then Err ManifestMalformed fs else Ok (addon_roots es) fs.
Proof.
  induction es as [|e es IH]; [reflexivity|].
  unfold get_addons in *. simpl filter. unfold has_malformed, addon_roots in *. simpl.
  destruct (is_addon e) eqn:Ea; simpl.
  - destruct (e_manifest e) as [[r|]|]; simpl.
    + unfold Monad.bind, Monad.ret. rewrite IH.
      destruct (existsb _ es); reflexivity.
    + reflexivity.
    + exact IH.
  - exact IH.
Qed.

(** With the old index present, the rebuild is the collection of the
    roots followed by the two writes. *)
Lemma rebuild_steps tostring md5 wi wm fs old :
  index_file fs = Some old ->
  update_addons_xml tostring md5 wi wm fs =
    if has_malformed (entries fs) then Err ManifestMalformed fs
    else
      let bytes := crlf (xml_decl ++ tostring (Node "addons" [] None (addon_roots (entries fs)))) in
      Monad.bind (write_index wi bytes)
        (fun _ => Monad.bind (md5_file md5) (fun m => write_md5 wm (m ++ " " ++ ADDONS_XML)%string))
        fs.
Proof.
  intros Hold. unfold update_addons_xml at 1. unfold md5_file at 1.
  unfold Monad.bind at 1 2 3. unfold Monad.gets.
  rewrite Hold. rewrite collect_addons.
  destruct (has_malformed (entries fs)); reflexivity.
Qed.

(** C7 (counterexample). A manifest that does not parse is not skipped:
    the rebuild raises and the old index and sidecar stay as they were. *)
Lemma C7_counterexample :
  Index.update_addons_xml Scenarios.tostring_tags Scenarios.digest_len Written Written
    Scenarios.repo_bad
    = Err ManifestMalformed Scenarios.repo_bad.
Proof. vm_compute. reflexivity. Qed.

(** C7 (amended). When the old index exists, the rebuild raises if some
    addon directory has a manifest that does not parse, whatever the
    writes would do, and nothing is written. Otherwise, when both files
    can be written, it writes a fresh [addons] root whose children are
    the manifest roots of the directories other than [.git], in listing
    order, skipping those without [addon.xml]; the text is written with
    CR LF newlines, and the sidecar holds the digest of those bytes, a
    space and [addons.xml]. *)
Theorem C7_index_rebuild (tostring : node -> list ascii) (md5 : list ascii -> string)
        (fs : RepoFS) (old : list ascii) :
  index_file fs = Some old ->
  update_addons_xml tostring md5 Written Written fs =
    (if has_malformed (entries fs) then Err ManifestMalformed fs
     else
       let bytes := crlf (xml_decl ++ tostring (Node "addons" [] None (addon_roots (entries fs)))) in
       Ok tt (mkRepo (entries fs) (Some bytes) (Some (md5 bytes ++ " " ++ ADDONS_XML)%string)))
  /\ (has_malformed (entries fs) = true ->
      forall wi wm, update_addons_xml tostring md5 wi wm fs = Err ManifestMalformed fs).
Proof.
  intros Hold. split.
  - rewrite (rebuild_steps _ _ _ _ _ _ Hold).
    destruct (has_malformed (entries fs)); [reflexivity|].
    unfold write_index, write_md5, md5_file, Monad.bind, Monad.modify. reflexivity.
  - intros Hm wi wm. rewrite (rebuild_steps _ _ _ _ _ _ Hold), Hm. reflexivity.
Qed.

Lemma C7_witness :
  index_file Scenarios.repo_ok = Some (list_ascii_of_string "<addons/>") /\
  (update_addons_xml Scenarios.tostring_tags Scenarios.digest_len Written Written Scenarios.repo_ok =
    (if has_malformed (entries Scenarios.repo_ok) then Err ManifestMalformed Scenarios.repo_ok
     else
       let bytes := crlf (xml_decl ++ Scenarios.tostring_tags
                            (Node "addons" [] None (addon_roots (entries Scenarios.repo_ok)))) in
       Ok tt (mkRepo (entries Scenarios.repo_ok) (Some bytes)
                     (Some (Scenarios.digest_len bytes ++ " " ++ ADDONS_XML)%string)))
   /\ (has_malformed (entries Scenarios.repo_ok) = true ->
       forall wi wm, update_addons_xml Scenarios.tostring_tags Scenarios.digest_len wi wm
                       Scenarios.repo_ok = Err ManifestMalformed Scenarios.repo_ok)).
Proof.
  split; [reflexivity|].
  apply (C7_index_rebuild Scenarios.tostring_tags Scenarios.digest_len Scenarios.repo_ok
           (list_ascii_of_string "<addons/>")).
  reflexivity.
Defined.

(** C10. Without an existing index the rebuild raises at the first digest
    of the old file, before anything is written: the index and its sidecar
    are left absent or as they were. *)
Theorem C10_missing_index (tostring : node -> list ascii) (md5 : list ascii -> string)
        (wi wm : write_outcome) (fs : RepoFS) :
  index_file fs = None ->
  update_addons_xml tostring md5 wi wm fs = Err ManifestNotFound fs.
Proof.
  intros H. unfold update_addons_xml, md5_file, Monad.bind. rewrite H. reflexivity.
Qed.

Lemma C10_witness :
  index_file Scenarios.repo_fresh = None /\
  update_addons_xml Scenarios.tostring_tags Scenarios.digest_len Written Written
    Scenarios.repo_fresh
    = Err ManifestNotFound Scenarios.repo_fresh.
Proof.
  split; [reflexivity|].
  apply C10_missing_index. reflexivity.
Defined.

End IndexClaims.

(* ================================================================== *)
(** ** Packaging *)

Module PackagingClaims.
Import Monad Release Scenarios.

(** C8 (counterexample). When [make_archive] fails the run raises with
    the staging directory still present; and when the [rmtree] after the
    archive hits an error it ignores, even a successful run leaves it. *)
Lemma C8_counterexample :
  match update_addon (env_release NEW false) "plugin.video.example" None None st_clean with
  | Err (FileOpFailed "make_archive") st' => st_staging st' = true
  | _ => False
  end
  /\ match update_addon env_stuck_staging "plugin.video.example" None None st_clean with
     | Ok _ st' => st_staging st' = true
     | _ => False
     end.
Proof. split; vm_compute; reflexivity. Qed.

(** C8 (amended). After the packaging step, the staging directory exists
    exactly as follows. When the icon copies fail it is as before. When
    the first [rmtree] left a stale one, [copytree] fails and it stays.
    Otherwise it is there when a failed [copytree] left it created, when
    copying [addon.xml] into it or building the archive failed, and, after
    a successful archive (whatever the copy to [-latest.zip] then does),
    exactly when the second [rmtree] swallowed an error. *)
Theorem C8_package_staging env addon v st :
  st_staging (state_of (package env addon v st)) =
    if env_icons_ok env then
      if negb (env_rmtree_before env) && st_staging st then true
      else
        match env_copytree env with
        | CopyOk =>
            if env_copy_xml_ok env then
              match env_archive env with
              | FileOk => negb (env_rmtree_after env)
              | FileFailed _ => true
              end
            else true
        | CopyFailed created => created
        end
    else st_staging st.
Proof.
  destruct st as [x stg arch]. unfold state_of. RunFacts.package_cases env;
    destruct stg; reflexivity.
Qed.

End PackagingClaims.

(* ================================================================== *)
(** ** Further properties of [update_addon] *)

Module ReleaseFacts.
Import Py PyFacts Xml Monad Release RunFacts VersionRun VersionFacts Observe.

Lemma check_commit_state tv tc cc c st r :
  check_commit tv tc cc c st = r -> state_of r = st.
Proof.
  unfold check_commit. unfold_run. intros <-.
  destruct (negb _); [reflexivity|]. destruct (_ && _); reflexivity.
Qed.

Lemma decide_version_state tv cv st r :
  decide_version tv cv st = r -> state_of r = st.
Proof.
  unfold decide_version. unfold_run. intros H.
  split_run H; subst r; reflexivity.
Qed.

Lemma prepare_frame env tc st r :
  prepare env tc st = r ->
  st_staging (state_of r) = st_staging st /\ st_archives (state_of r) = st_archives st.
Proof.
  unfold prepare, revert, read_baseline. unfold_run. intros H.
  split_run H; subst r; split; reflexivity.
Qed.

Lemma write_manifest_frame env v short cc st r :
  write_manifest env v short cc st = r ->
  st_staging (state_of r) = st_staging st /\ st_archives (state_of r) = st_archives st.
Proof.
  unfold write_manifest. unfold_run. intros H.
  split_run H; subst r; split; reflexivity.
Qed.

Lemma prepare_commit env tc st cv cc c st1 :
  prepare env tc st = Ok (cv, cc, c) st1 -> env_head env = Some c.
Proof.
  unfold prepare, revert, read_baseline. unfold_run. intros H.
  split_run H; injection H; intros; congruence.
Qed.

Lemma prepare_missing env tc st cv cc c st1 :
  env_revert env = Some None ->
  prepare env tc st = Ok (cv, cc, c) st1 -> cv = "0.0.0" /\ cc = None.
Proof.
  intros Hr. unfold prepare, revert, read_baseline. rewrite Hr. unfold_run. intros H.
  split_run H; injection H; intros; subst; split; reflexivity.
Qed.

(** [update_addon] as the sequence of its phases. *)
Lemma update_addon_unfold env addon tv tc st :
  update_addon env addon tv tc st =
    match prepare env (or_default tc "HEAD") st with
    | Ok (cv, cc, commit) st1 =>
        match check_commit (or_default tv "AUTO") (or_default tc "HEAD") cc commit st1 with
        | Ok _ st2 =>
            match decide_version (or_default tv "AUTO") cv st2 with
            | Ok v st3 =>
                match write_manifest env v (substring 0 7 commit) cc st3 with
                | Ok _ st4 => package env addon v st4
                | Err e s => Err e s
                end
            | Err e s => Err e s
            end
        | Err e s => Err e s
        end
    | Err e s => Err e s
    end.
Proof.
  unfold update_addon, Monad.bind. cbv zeta.
  destruct (prepare env (or_default tc "HEAD") st) as [[[cv cc] commit] st1|e s];
    reflexivity.
Qed.

Lemma update_addon_ok_inv env addon tv tc st u st' :
  update_addon env addon tv tc st = Ok u st' ->
  exists cv cc commit st1 v st3,
    prepare env (or_default tc "HEAD") st = Ok (cv, cc, commit) st1
    /\ check_commit (or_default tv "AUTO") (or_default tc "HEAD") cc commit st1 = Ok tt st1
    /\ decide_version (or_default tv "AUTO") cv st1 = Ok v st1
    /\ write_manifest env v (substring 0 7 commit) cc st1 = Ok tt st3
    /\ package env addon v st3 = Ok u st'.
Proof.
  rewrite update_addon_unfold. intros H.
  destruct (prepare _ _ st) as [[[cv cc] commit] st1|] eqn:Hp; [|discriminate].
  destruct (check_commit _ _ cc commit st1) as [[] st2|] eqn:Hc; [|discriminate].
  pose proof (check_commit_state _ _ _ _ _ _ Hc) as Hs; simpl in Hs; subst st2.
  destruct (decide_version _ cv st1) as [v st2|] eqn:Hd; [|discriminate].
  pose proof (decide_version_state _ _ _ _ Hd) as Hs; simpl in Hs; subst st2.
  destruct (write_manifest _ _ _ _ st1) as [[] st3|] eqn:Hw; [|discriminate].
  exists cv, cc, commit, st1, v, st3. repeat split; assumption.
Qed.

Lemma package_ok env addon v st u st' :
  package env addon v st = Ok u st' ->
  st' = mkState (st_addon_xml st) (negb (env_rmtree_after env))
          (st_archives st ++ [((addon ++ "-" ++ v ++ ".zip")%string, true);
                              ((addon ++ "-latest.zip")%string, true)]).
Proof.
  destruct st as [x stg arch].
  package_cases env; destruct stg; simpl; intros H; try discriminate;
    injection H as _ <-; unfold add_archive, set_staging; simpl; now rewrite <- app_assoc.
Qed.

Lemma package_err env addon v st e st' :
  package env addon v st = Err e st' ->
  st_archives st' = st_archives st
  \/ (e = FileOpFailed "make_archive"
      /\ st_archives st' = st_archives st ++ [((addon ++ "-" ++ v ++ ".zip")%string, false)])
  \/ (e = FileOpFailed "copy latest"
      /\ (st_archives st' = st_archives st ++ [((addon ++ "-" ++ v ++ ".zip")%string, true)]
          \/ st_archives st' = st_archives st ++ [((addon ++ "-" ++ v ++ ".zip")%string, true);
                                                 ((addon ++ "-latest.zip")%string, false)])).
Proof.
  destruct st as [x stg arch].
  package_cases env; destruct stg; simpl; intros H; try discriminate;
    injection H as <- <-; unfold add_archive, set_staging; simpl;
    first [ left; reflexivity
          | right; left; split; reflexivity
          | right; right; split; [reflexivity | left; reflexivity]
          | right; right; split; [reflexivity | right; now rewrite <- app_assoc] ].
Qed.

Lemma written_provider meta v root :
  attr_get "provider-name"
    (attrib (apply_defaults meta
               (attr_update [("version", v); ("provider-name", PROVIDER)] root)))
  = Some PROVIDER.
Proof.
  rewrite apply_defaults_attrib. destruct root as [t a x c]. simpl.
  apply attr_get_set_eq.
Qed.

Lemma written_other meta v root k :
  k <> "version" -> k <> "provider-name" ->
  attr_get k
    (attrib (apply_defaults meta
               (attr_update [("version", v); ("provider-name", PROVIDER)] root)))
  = attr_get k (attrib root).
Proof.
  intros H1 H2. rewrite apply_defaults_attrib. destruct root as [t a x c]. simpl.
  rewrite !attr_get_set_neq by assumption. reflexivity.
Qed.

Lemma split_char_pieces sep s :
  Forall (fun p => Forall (fun c => Ascii.eqb c sep = false) p) (split_char sep s).
Proof.
  induction s as [|c s IH]; simpl; [repeat constructor|].
  destruct (Ascii.eqb c sep) eqn:E; [constructor; [constructor | exact IH]|].
  destruct (split_char sep s) as [|p ps]; [repeat constructor; exact E|].
  inversion IH; subst. constructor; [constructor; assumption | assumption].
Qed.

Lemma z_str_no_dot z : Forall (fun c => Ascii.eqb c "."%char = false) (z_str z).
Proof.
  unfold z_str. destruct (z <? 0)%Z; [constructor; [reflexivity|] |]; apply nat_str_no_dot.
Qed.

Lemma auto_bump_parts cv v : auto_bump cv = Some v -> dot_parts v = 3%nat.
Proof.
  unfold auto_bump.
  pose proof (split_char_pieces "."%char (list_ascii_of_string cv)) as Hp.
  destruct (split_char _ _) as [|major [|minor [|patch [|? ?]]]]; try discriminate.
  destruct (int minor) as [m|]; [|discriminate]. intros H; injection H as <-.
  inversion Hp; subst.
  unfold dot_parts. rewrite list_ascii_of_string_of_list_ascii. cbn [app].
  rewrite split_char_app by assumption.
  rewrite split_char_app by apply z_str_no_dot.
  reflexivity.
Qed.

(** In automatic mode a successful run took its version from
    [auto_bump], unpadded. *)
Lemma auto_release_inv env addon tv tc st u st' :
  or_default tv "AUTO" = "AUTO" ->
  update_addon env addon tv tc st = Ok u st' ->
  exists cv cc commit st1 v root,
    prepare env (or_default tc "HEAD") st = Ok (cv, cc, commit) st1
    /\ same_commit cc commit = false
    /\ auto_bump cv = Some v
    /\ st_addon_xml st' = Some (Parsed root)
    /\ attr_get "version" (attrib root) = Some v.
Proof.
  intros Hauto H.
  destruct (update_addon_ok_inv _ _ _ _ _ _ _ H)
    as (cv & cc & commit & st1 & v & st3 & Hp & Hc & Hd & Hw & Hk).
  rewrite Hauto in Hc, Hd.
  destruct (write_manifest_ok _ _ _ _ _ _ _ Hw) as (root & meta & _ & Hx).
  apply package_ok in Hk. subst st'.
  unfold decide_version, Monad.bind in Hd. change (is_auto "AUTO") with true in Hd.
  destruct (auto_bump cv) as [v0|] eqn:Hb; [|discriminate].
  cbv beta iota delta [Monad.ret] in Hd.
  rewrite pad_version_short in Hd by (rewrite (auto_bump_parts _ _ Hb); lia).
  rewrite (auto_bump_parts _ _ Hb) in Hd. simpl repeat_str in Hd.
  rewrite append_empty_r in Hd. injection Hd as <-.
  exists cv, cc, commit, st1, v0, (apply_defaults meta
    (attr_update [("version", v0); ("provider-name", PROVIDER)] root)).
  repeat split; try assumption.
  - unfold check_commit in Hc. change (is_auto "AUTO") with true in Hc.
    destruct (pinned _ commit); simpl in Hc; [|discriminate].
    destruct (same_commit cc commit); [discriminate | reflexivity].
  - apply written_version.
Qed.

Lemma decide_lower_auto cv st : decide_version "auto" cv st = Err InvalidVersion st.
Proof. reflexivity. Qed.

Lemma hex_not_head c : is_hex c = true -> String.eqb "head" (substring 0 4 c) = false.
Proof.
  intros H. destruct c as [|ch r]; [reflexivity|].
  apply String.eqb_neq. simpl. intros E. injection E as Ech _.
  subst ch. discriminate H.
Qed.

End ReleaseFacts.

Module ReleaseExtras.
Import Py PyFacts Xml Monad Release RunFacts VersionRun VersionFacts Observe ReleaseFacts.

(** A successful run leaves [addon.xml] holding a manifest with the new
    version and the provider name [MattHuisman.nz], and the complete
    archives [<addon>-<version>.zip] and [<addon>-latest.zip] appended, in
    that order. The staging directory is left exactly when the [rmtree]
    after the archive swallowed an error. *)
Theorem release_ok_state env addon tv tc st u st' :
  update_addon env addon tv tc st = Ok u st' ->
  exists v root,
    st_addon_xml st' = Some (Parsed root)
    /\ attr_get "version" (attrib root) = Some v
    /\ attr_get "provider-name" (attrib root) = Some PROVIDER
    /\ st_staging st' = negb (env_rmtree_after env)
    /\ st_archives st' = st_archives st
                         ++ [((addon ++ "-" ++ v ++ ".zip")%string, true);
                             ((addon ++ "-latest.zip")%string, true)].
Proof.
  intros H.
  destruct (update_addon_ok_inv _ _ _ _ _ _ _ H)
    as (cv & cc & commit & st1 & v & st3 & Hp & Hc & Hd & Hw & Hk).
  destruct (write_manifest_ok _ _ _ _ _ _ _ Hw) as (root & meta & _ & Hx).
  pose proof (prepare_frame _ _ _ _ Hp) as [_ Pa]; simpl in Pa.
  pose proof (write_manifest_frame _ _ _ _ _ _ Hw) as [_ Wa]; simpl in Wa.
  apply package_ok in Hk. subst st'. simpl.
  exists v, (apply_defaults meta (attr_update [("version", v); ("provider-name", PROVIDER)] root)).
  repeat split.
  - exact Hx.
  - apply written_version.
  - apply written_provider.
  - rewrite Wa, Pa. reflexivity.
Qed.

Lemma release_ok_state_witness :
  exists v root,
    st_addon_xml Scenarios.st_released = Some (Parsed root)
    /\ attr_get "version" (attrib root) = Some v
    /\ attr_get "provider-name" (attrib root) = Some PROVIDER
    /\ st_staging Scenarios.st_released
       = negb (env_rmtree_after (Scenarios.env_release Scenarios.NEW true))
    /\ st_archives Scenarios.st_released = st_archives Scenarios.st_clean
         ++ [(("plugin.video.example" ++ "-" ++ v ++ ".zip")%string, true);
             (("plugin.video.example" ++ "-latest.zip")%string, true)].
Proof.
  apply (release_ok_state (Scenarios.env_release Scenarios.NEW true) "plugin.video.example"
           (Some "1.5") None Scenarios.st_clean tt Scenarios.st_released).
  vm_compute. reflexivity.
Defined.

(** The manifest a successful run writes is the one of the [src] checkout:
    every attribute other than [version] and [provider-name] has its value
    there, whatever [addon.xml] held before. *)
Theorem release_keeps_src_attributes env addon tv tc st u st' :
  update_addon env addon tv tc st = Ok u st' ->
  exists src root,
    env_src_manifest env = Some (Parsed src)
    /\ st_addon_xml st' = Some (Parsed root)
    /\ forall k, k <> "version" -> k <> "provider-name" ->
         attr_get k (attrib root) = attr_get k (attrib src).
Proof.
  intros H.
  destruct (update_addon_ok_inv _ _ _ _ _ _ _ H)
    as (cv & cc & commit & st1 & v & st3 & Hp & Hc & Hd & Hw & Hk).
  destruct (write_manifest_ok _ _ _ _ _ _ _ Hw) as (src & meta & Hsrc & Hx).
  apply package_ok in Hk. subst st'. simpl.
  exists src, (apply_defaults meta (attr_update [("version", v); ("provider-name", PROVIDER)] src)).
  split; [exact Hsrc|]. split; [exact Hx|].
  intros k H1 H2. apply written_other; assumption.
Qed.

Lemma release_keeps_src_attributes_witness :
  exists src root,
    env_src_manifest (Scenarios.env_release Scenarios.NEW true) = Some (Parsed src)
    /\ st_addon_xml Scenarios.st_released = Some (Parsed root)
    /\ forall k, k <> "version" -> k <> "provider-name" ->
         attr_get k (attrib root) = attr_get k (attrib src).
Proof.
  apply (release_keeps_src_attributes (Scenarios.env_release Scenarios.NEW true)
           "plugin.video.example" (Some "1.5") None Scenarios.st_clean tt Scenarios.st_released).
  vm_compute. reflexivity.
Defined.

(** A successful run with an explicit target version: the target and the
    baseline version both parse as [StrictVersion]s, and the target is
    strictly greater. *)
Theorem explicit_release_higher env addon t tc st u st' :
  t <> "" -> t <> "AUTO" ->
  update_addon env addon (Some t) tc st = Ok u st' ->
  exists cv cc commit st1 a b,
    prepare env (or_default tc "HEAD") st = Ok (cv, cc, commit) st1
    /\ StrictVersion.parse t = Some a
    /\ StrictVersion.parse cv = Some b
    /\ StrictVersion.cmp a b = Gt.
Proof.
  intros Hne Hna H.
  destruct (update_addon_ok_inv _ _ _ _ _ _ _ H)
    as (cv & cc & commit & st1 & v & st3 & Hp & Hc & Hd & Hw & Hk).
  rewrite (or_default_some t "AUTO" Hne) in Hd.
  unfold decide_version, Monad.bind in Hd.
  assert (Ha : is_auto t = false) by (apply String.eqb_neq; exact Hna).
  rewrite Ha in Hd.
  destruct (StrictVersion.parse t) as [a|] eqn:Pa; [|discriminate].
  destruct (StrictVersion.parse cv) as [b|] eqn:Pb; [|discriminate].
  destruct (StrictVersion.le a b) eqn:Le; [discriminate|].
  exists cv, cc, commit, st1, a, b. repeat split; try assumption.
  unfold StrictVersion.le in Le. destruct (StrictVersion.cmp a b); congruence.
Qed.

Lemma explicit_release_higher_witness :
  exists cv cc commit st1 a b,
    prepare (Scenarios.env_release Scenarios.NEW true) (or_default None "HEAD") Scenarios.st_clean
      = Ok (cv, cc, commit) st1
    /\ StrictVersion.parse "1.5" = Some a
    /\ StrictVersion.parse cv = Some b
    /\ StrictVersion.cmp a b = Gt.
Proof.
  apply (explicit_release_higher (Scenarios.env_release Scenarios.NEW true) "plugin.video.example"
           "1.5" None Scenarios.st_clean tt Scenarios.st_released);
    [discriminate | discriminate | vm_compute; reflexivity].
Defined.

(** A successful automatic run (the version argument is missing, empty or
    [AUTO]): the resolved commit differs from the baseline commit, the
    baseline version could be bumped, and the bumped version is written
    unchanged. *)
Theorem auto_release env addon tv tc st u st' :
  or_default tv "AUTO" = "AUTO" ->
  update_addon env addon tv tc st = Ok u st' ->
  exists cv cc commit st1 v root,
    prepare env (or_default tc "HEAD") st = Ok (cv, cc, commit) st1
    /\ same_commit cc commit = false
    /\ auto_bump cv = Some v
    /\ st_addon_xml st' = Some (Parsed root)
    /\ attr_get "version" (attrib root) = Some v.
Proof. apply auto_release_inv. Qed.

Lemma auto_release_witness :
  exists cv cc commit st1 v root,
    prepare (Scenarios.env_release Scenarios.NEW true) (or_default None "HEAD") Scenarios.st_clean
      = Ok (cv, cc, commit) st1
    /\ same_commit cc commit = false
    /\ auto_bump cv = Some v
    /\ st_addon_xml Scenarios.st_auto_release = Some (Parsed root)
    /\ attr_get "version" (attrib root) = Some v.
Proof.
  apply (auto_release (Scenarios.env_release Scenarios.NEW true) "plugin.video.example"
           (Some "AUTO") None Scenarios.st_clean tt Scenarios.st_auto_release);
    [reflexivity | vm_compute; reflexivity].
Defined.

(** When [revert] leaves no [addon.xml] (it was never committed, and
    [git clean -f] removed it), the baseline is version [0.0.0] with no
    commit, and a successful automatic run writes version [0.1.0]. *)
Theorem release_without_manifest env addon tv tc st u st' :
  env_revert env = Some None ->
  or_default tv "AUTO" = "AUTO" ->
  update_addon env addon tv tc st = Ok u st' ->
  exists commit st1 root,
    prepare env (or_default tc "HEAD") st = Ok ("0.0.0", None, commit) st1
    /\ st_addon_xml st' = Some (Parsed root)
    /\ attr_get "version" (attrib root) = Some "0.1.0".
Proof.
  intros Hr Hauto H.
  destruct (auto_release_inv _ _ _ _ _ _ _ Hauto H)
    as (cv & cc & commit & st1 & v & root & Hp & _ & Hb & Hx & Hv).
  destruct (prepare_missing _ _ _ _ _ _ _ Hr Hp) as [-> ->].
  vm_compute in Hb. injection Hb as <-.
  exists commit, st1, root. split; [exact Hp|]. split; assumption.
Qed.

Lemma release_without_manifest_witness :
  exists commit st1 root,
    prepare Scenarios.env_untracked (or_default None "HEAD") Scenarios.st_clean
      = Ok ("0.0.0", None, commit) st1
    /\ st_addon_xml Scenarios.st_first_release = Some (Parsed root)
    /\ attr_get "version" (attrib root) = Some "0.1.0".
Proof.
  apply (release_without_manifest Scenarios.env_untracked "plugin.video.example" (Some "")
           None Scenarios.st_clean tt Scenarios.st_first_release);
    [reflexivity | reflexivity | vm_compute; reflexivity].
Defined.

(** The usage comment writes the version argument as [auto], but only
    [AUTO] selects automatic mode: [auto] is taken as an explicit version,
    which [StrictVersion] rejects, so such a run never succeeds. *)
Theorem lowercase_auto_rejected env addon tc st :
  (forall u st', update_addon env addon (Some "auto") tc st <> Ok u st')
  /\ (forall cv cc commit st1,
        prepare env (or_default tc "HEAD") st = Ok (cv, cc, commit) st1 ->
        pinned (or_default tc "HEAD") commit = true ->
        update_addon env addon (Some "auto") tc st = Err InvalidVersion st1).
Proof.
  rewrite update_addon_unfold. change (or_default (Some "auto") "AUTO") with "auto".
  unfold check_commit. change (is_auto "auto") with false.
  destruct (prepare env (or_default tc "HEAD") st) as [[[cv cc] commit] s1|e s1] eqn:Hp.
  - destruct (pinned (or_default tc "HEAD") commit) eqn:Hpin.
    + cbn [negb andb]. unfold Monad.ret. rewrite decide_lower_auto.
      split; [discriminate|].
      intros cv' cc' commit' st1 E _. injection E as _ _ _ <-. reflexivity.
    + cbn [negb]. unfold Monad.raise. split; [discriminate|].
      intros cv' cc' commit' st1 E Hpin'. injection E as _ _ <- _. congruence.
  - split; [discriminate|]. intros; discriminate.
Qed.

Lemma lowercase_auto_rejected_witness :
  (forall u st', update_addon (Scenarios.env_release Scenarios.NEW true) "plugin.video.example"
                   (Some "auto") None Scenarios.st_clean <> Ok u st')
  /\ (forall cv cc commit st1,
        prepare (Scenarios.env_release Scenarios.NEW true) (or_default None "HEAD")
          Scenarios.st_clean = Ok (cv, cc, commit) st1 ->
        pinned (or_default None "HEAD") commit = true ->
        update_addon (Scenarios.env_release Scenarios.NEW true) "plugin.video.example"
          (Some "auto") None Scenarios.st_clean = Err InvalidVersion st1).
Proof. exact (lowercase_auto_rejected _ _ _ _). Defined.

(** The usage comment writes the commit argument as [head], but only
    [HEAD] means the current head: [head] is checked out as a revision and
    must be a prefix of the resolved commit, which a hexadecimal hash never
    starts with, so such a run never succeeds. *)
Theorem lowercase_head_rejected env addon tv st c :
  env_head env = Some c -> is_hex c = true ->
  forall u st', update_addon env addon tv (Some "head") st <> Ok u st'.
Proof.
  intros Hh Hx u st' H.
  destruct (update_addon_ok_inv _ _ _ _ _ _ _ H)
    as (cv & cc & commit & st1 & v & st3 & Hp & Hc & _).
  pose proof (prepare_commit _ _ _ _ _ _ _ Hp) as Hc'. rewrite Hh in Hc'.
  injection Hc' as <-.
  change (or_default (Some "head") "HEAD") with "head" in Hc.
  unfold check_commit, pinned in Hc. change (is_head "head") with false in Hc.
  change (String.length "head") with 4%nat in Hc.
  rewrite (hex_not_head c Hx) in Hc. discriminate.
Qed.

Lemma lowercase_head_rejected_witness :
  env_head (Scenarios.env_release Scenarios.NEW true) = Some Scenarios.NEW
  /\ is_hex Scenarios.NEW = true
  /\ forall u st', update_addon (Scenarios.env_release Scenarios.NEW true) "plugin.video.example"
                     None (Some "head") Scenarios.st_clean <> Ok u st'.
Proof.
  split; [reflexivity|]. split; [vm_compute; reflexivity|].
  apply (lowercase_head_rejected _ _ _ _ Scenarios.NEW); [reflexivity | vm_compute; reflexivity].
Defined.

(** In automatic mode a baseline version without exactly three
    dot-separated parts (such as [1.4]) cannot be unpacked, and the version
    decision raises [InvalidVersion]. *)
Theorem auto_needs_three_parts cv st :
  dot_parts cv <> 3%nat -> decide_version "AUTO" cv st = Err InvalidVersion st.
Proof.
  intros H. unfold decide_version, Monad.bind. change (is_auto "AUTO") with true.
  unfold auto_bump. unfold dot_parts in H.
  destruct (split_char "."%char (list_ascii_of_string cv)) as [|a [|b [|c [|d l]]]];
    simpl in H; try (exfalso; lia); reflexivity.
Qed.

Lemma auto_needs_three_parts_witness :
  dot_parts "1.4" <> 3%nat
  /\ decide_version "AUTO" "1.4" Scenarios.st_clean = Err InvalidVersion Scenarios.st_clean.
Proof.
  split; [discriminate|]. apply auto_needs_three_parts. discriminate.
Defined.

(** A failed run adds no archive file, except in two cases. When
    [make_archive] failed, it may leave a partly written
    [<addon>-<version>.zip]. When the copy to [<addon>-latest.zip] failed,
    [<addon>-<version>.zip] is complete and the copy may leave a partly
    written [<addon>-latest.zip]. *)
Theorem failed_release_archives env addon tv tc st e st' :
  update_addon env addon tv tc st = Err e st' ->
  st_archives st' = st_archives st
  \/ exists v,
       (e = FileOpFailed "make_archive"
        /\ st_archives st' = st_archives st ++ [((addon ++ "-" ++ v ++ ".zip")%string, false)])
       \/ (e = FileOpFailed "copy latest"
           /\ (st_archives st' = st_archives st ++ [((addon ++ "-" ++ v ++ ".zip")%string, true)]
               \/ st_archives st' = st_archives st ++ [((addon ++ "-" ++ v ++ ".zip")%string, true);
                                                      ((addon ++ "-latest.zip")%string, false)])).
Proof.
  rewrite update_addon_unfold.
  destruct (prepare _ _ st) as [[[cv cc] commit] s1|e1 s1] eqn:Hp;
    pose proof (prepare_frame _ _ _ _ Hp) as [_ A1]; simpl in A1;
    [|intros H; injection H as _ <-; left; exact A1].
  destruct (check_commit _ _ cc commit s1) as [u2 s2|e2 s2] eqn:Hc;
    pose proof (check_commit_state _ _ _ _ _ _ Hc) as A2; simpl in A2; subst s2;
    [|intros H; injection H as _ <-; left; exact A1].
  destruct (decide_version _ cv s1) as [v s3|e3 s3] eqn:Hd;
    pose proof (decide_version_state _ _ _ _ Hd) as A3; simpl in A3; subst s3;
    [|intros H; injection H as _ <-; left; exact A1].
  destruct (write_manifest _ _ _ _ s1) as [u4 s4|e4 s4] eqn:Hw;
    pose proof (write_manifest_frame _ _ _ _ _ _ Hw) as [_ A4]; simpl in A4;
    [|intros H; injection H as _ <-; left; congruence].
  intros H. rewrite <- A1, <- A4.
  apply package_err in H as [H|[[He H]|[He [H|H]]]].
  - left. exact H.
  - right. exists v. left. split; assumption.
  - right. exists v. right. split; [exact He | left; exact H].
  - right. exists v. right. split; [exact He | right; exact H].
Qed.

Lemma failed_release_archives_witness :
  st_archives Scenarios.st_archive_failed = st_archives Scenarios.st_clean
  \/ exists v,
       (FileOpFailed "make_archive" = FileOpFailed "make_archive"
        /\ st_archives Scenarios.st_archive_failed
           = st_archives Scenarios.st_clean
             ++ [(("plugin.video.example" ++ "-" ++ v ++ ".zip")%string, false)])
       \/ (FileOpFailed "make_archive" = FileOpFailed "copy latest"
           /\ (st_archives Scenarios.st_archive_failed
                = st_archives Scenarios.st_clean
                  ++ [(("plugin.video.example" ++ "-" ++ v ++ ".zip")%string, true)]
               \/ st_archives Scenarios.st_archive_failed
                  = st_archives Scenarios.st_clean
                    ++ [(("plugin.video.example" ++ "-" ++ v ++ ".zip")%string, true);
                        (("plugin.video.example" ++ "-latest.zip")%string, false)])).
Proof.
  apply (failed_release_archives (Scenarios.env_release Scenarios.NEW false)
           "plugin.video.example" None None Scenarios.st_clean).
  vm_compute. reflexivity.
Defined.

End ReleaseExtras.

(* ================================================================== *)
(** ** Further properties of [update_addons_xml] *)

Module IndexFacts.
Import Xml Monad Index IndexSpec Observe.

(** The bytes a rebuild writes to [addons.xml]. *)
Definition new_index (tostring : node -> list ascii) (fs : RepoFS) : list ascii :=
  crlf (xml_decl ++ tostring (Node "addons" [] None (addon_roots (entries fs)))).

Lemma rebuild_unfold tostring md5 wi wm fs old :
  index_file fs = Some old ->
  update_addons_xml tostring md5 wi wm fs =
    if has_malformed (entries fs) then Err ManifestMalformed fs
    else
      let bytes := new_index tostring fs in
      let line := (md5 bytes ++ " " ++ ADDONS_XML)%string in
      match wi with
      | OpenFailed => Err (FileOpFailed "open addons.xml") fs
      | WriteFailed n =>
          Err (FileOpFailed "write addons.xml") (mkRepo (entries fs) (Some (firstn n bytes)) (index_md5 fs))
      | Written =>
          match wm with
          | Written => Ok tt (mkRepo (entries fs) (Some bytes) (Some line))
          | OpenFailed =>
              Err (FileOpFailed "open addons.xml.md5") (mkRepo (entries fs) (Some bytes) (index_md5 fs))
          | WriteFailed n =>
              Err (FileOpFailed "write addons.xml.md5")
                  (mkRepo (entries fs) (Some bytes) (Some (substring 0 n line)))
          end
      end.
Proof.
  intros Hold. rewrite (IndexClaims.rebuild_steps _ _ _ _ _ _ Hold).
  destruct (has_malformed (entries fs)); [reflexivity|].
  unfold new_index. cbv zeta.
  unfold write_index, write_md5, md5_file, Monad.bind, Monad.modify, Monad.raise.
  destruct wi, wm; reflexivity.
Qed.

Lemma rebuild_no_index tostring md5 wi wm fs :
  index_file fs = None -> update_addons_xml tostring md5 wi wm fs = Err ManifestNotFound fs.
Proof.
  intros H. unfold update_addons_xml, md5_file, Monad.bind. rewrite H. reflexivity.
Qed.

Lemma crlf_cons c s :
  crlf (c :: s) = (if Ascii.eqb c Text.nl then ["013"%char; Text.nl] else [c]) ++ crlf s.
Proof. reflexivity. Qed.

Lemma crlf_head s :
  match crlf s with d :: _ => Ascii.eqb d Text.nl = false | [] => True end.
Proof.
  destruct s as [|c s]; [exact I|]. rewrite crlf_cons.
  destruct (Ascii.eqb c Text.nl) eqn:E; [reflexivity | exact E].
Qed.

Lemma crlf_no_bare_lf s : no_bare_lf (crlf s) = true.
Proof.
  induction s as [|c s IH]; [reflexivity|]. rewrite crlf_cons.
  destruct (Ascii.eqb c Text.nl) eqn:E.
  - exact IH.
  - cbn [app no_bare_lf]. rewrite E.
    destruct (Ascii.eqb c "013") ; [|exact IH].
    pose proof (crlf_head s) as Hh.
    destruct (crlf s) as [|d r]; [reflexivity|]. rewrite Hh. exact IH.
Qed.

End IndexFacts.

Module IndexExtras.
Import Xml Monad Index IndexSpec Observe IndexFacts.

(** The rebuild does not read the old index beyond checking that it
    exists: with the same directory listing and the same outcomes of the
    two writes, two repositories that each have an index both succeed and
    end in the same state, or both fail with the same error. *)
Theorem rebuild_ignores_old_index tostring md5 wi wm fs1 fs2 :
  entries fs2 = entries fs1 -> index_file fs1 <> None -> index_file fs2 <> None ->
  match update_addons_xml tostring md5 wi wm fs1, update_addons_xml tostring md5 wi wm fs2 with
  | Ok _ s1, Ok _ s2 => s1 = s2
  | Err e1 _, Err e2 _ => e1 = e2
  | _, _ => False
  end.
Proof.
  intros Hent H1 H2.
  destruct (index_file fs1) as [old1|] eqn:E1; [|congruence].
  destruct (index_file fs2) as [old2|] eqn:E2; [|congruence].
  rewrite (rebuild_unfold _ _ _ _ _ _ E1), (rebuild_unfold _ _ _ _ _ _ E2).
  unfold new_index. rewrite Hent.
  destruct (has_malformed (entries fs1)); [reflexivity|].
  destruct wi, wm; reflexivity.
Qed.

Lemma rebuild_ignores_old_index_witness :
  match update_addons_xml Scenarios.tostring_tags Scenarios.digest_len Written Written
          Scenarios.repo_ok,
        update_addons_xml Scenarios.tostring_tags Scenarios.digest_len Written Written
          (mkRepo (entries Scenarios.repo_ok) (Some []) None) with
  | Ok _ s1, Ok _ s2 => s1 = s2
  | Err e1 _, Err e2 _ => e1 = e2
  | _, _ => False
  end.
Proof.
  apply rebuild_ignores_old_index; [reflexivity | discriminate | discriminate].
Defined.

(** Rebuilding twice gives what rebuilding once gives. *)
Theorem rebuild_idempotent tostring md5 wi wm fs s :
  update_addons_xml tostring md5 wi wm fs = Ok tt s ->
  update_addons_xml tostring md5 wi wm s = Ok tt s.
Proof.
  intros H.
  destruct (index_file fs) as [old|] eqn:E;
    [|rewrite (rebuild_no_index _ _ _ _ _ E) in H; discriminate].
  rewrite (rebuild_unfold _ _ _ _ _ _ E) in H.
  destruct (has_malformed (entries fs)) eqn:Hm; [discriminate|].
  destruct wi, wm; try discriminate.
  injection H as <-.
  rewrite (rebuild_unfold _ _ _ _ _ (new_index tostring fs)) by reflexivity.
  unfold new_index. simpl entries. rewrite Hm. reflexivity.
Qed.

Lemma rebuild_idempotent_witness :
  update_addons_xml Scenarios.tostring_tags Scenarios.digest_len Written Written
    Scenarios.repo_rebuilt
  = Ok tt Scenarios.repo_rebuilt.
Proof.
  apply (rebuild_idempotent _ _ _ _ Scenarios.repo_ok). vm_compute. reflexivity.
Defined.

(** What a failed rebuild leaves. It changes nothing when the old index
    is missing, a manifest does not parse, or [addons.xml] cannot be
    opened for writing. When writing [addons.xml] fails part-way, the file
    holds a prefix of the new index and the sidecar is unchanged. When the
    sidecar cannot be written, [addons.xml] already holds the new index
    while the sidecar keeps its old content, or a prefix of the new line
    when the write failed part-way. *)
Theorem rebuild_failure_states tostring md5 wi wm fs e s :
  update_addons_xml tostring md5 wi wm fs = Err e s ->
  let bytes := new_index tostring fs in
  let line := (md5 bytes ++ " " ++ ADDONS_XML)%string in
  (s = fs /\ (e = ManifestNotFound \/ e = ManifestMalformed \/ e = FileOpFailed "open addons.xml"))
  \/ (e = FileOpFailed "write addons.xml"
      /\ exists n, s = mkRepo (entries fs) (Some (firstn n bytes)) (index_md5 fs))
  \/ (e = FileOpFailed "open addons.xml.md5"
      /\ s = mkRepo (entries fs) (Some bytes) (index_md5 fs))
  \/ (e = FileOpFailed "write addons.xml.md5"
      /\ exists n, s = mkRepo (entries fs) (Some bytes) (Some (substring 0 n line))).
Proof.
  intros H bytes line. destruct (index_file fs) as [old|] eqn:E.
  - rewrite (rebuild_unfold _ _ _ _ _ _ E) in H.
    destruct (has_malformed (entries fs)).
    + injection H as <- <-. left. auto.
    + destruct wi as [| |n]; [destruct wm as [| |m]| |]; try discriminate;
        injection H as <- <-.
      * right. right. left. split; reflexivity.
      * right. right. right. split; [reflexivity | exists m; reflexivity].
      * left. auto.
      * right. left. split; [reflexivity | exists n; reflexivity].
  - rewrite (rebuild_no_index _ _ _ _ _ E) in H. injection H as <- <-. left. auto.
Qed.

Lemma rebuild_failure_states_witness :
  let bytes := new_index Scenarios.tostring_tags Scenarios.repo_ok in
  let line := (Scenarios.digest_len bytes ++ " " ++ ADDONS_XML)%string in
  let s := mkRepo (entries Scenarios.repo_ok) (Some bytes) (index_md5 Scenarios.repo_ok) in
  (s = Scenarios.repo_ok
   /\ (FileOpFailed "open addons.xml.md5" = ManifestNotFound
       \/ FileOpFailed "open addons.xml.md5" = ManifestMalformed
       \/ FileOpFailed "open addons.xml.md5" = FileOpFailed "open addons.xml"))
  \/ (FileOpFailed "open addons.xml.md5" = FileOpFailed "write addons.xml"
      /\ exists n, s = mkRepo (entries Scenarios.repo_ok) (Some (firstn n bytes))
                              (index_md5 Scenarios.repo_ok))
  \/ (FileOpFailed "open addons.xml.md5" = FileOpFailed "open addons.xml.md5"
      /\ s = mkRepo (entries Scenarios.repo_ok) (Some bytes) (index_md5 Scenarios.repo_ok))
  \/ (FileOpFailed "open addons.xml.md5" = FileOpFailed "write addons.xml.md5"
      /\ exists n, s = mkRepo (entries Scenarios.repo_ok) (Some bytes) (Some (substring 0 n line))).
Proof.
  apply (rebuild_failure_states Scenarios.tostring_tags Scenarios.digest_len Written OpenFailed
           Scenarios.repo_ok (FileOpFailed "open addons.xml.md5")
           (mkRepo (entries Scenarios.repo_ok)
                   (Some (new_index Scenarios.tostring_tags Scenarios.repo_ok))
                   (index_md5 Scenarios.repo_ok))).
  vm_compute. reflexivity.
Defined.

(** The index is written with Windows line endings: every LF of the file
    is preceded by a CR, whatever the serializer returns. *)
Theorem index_crlf tostring md5 wi wm fs s :
  update_addons_xml tostring md5 wi wm fs = Ok tt s ->
  exists b, index_file s = Some b /\ no_bare_lf b = true.
Proof.
  intros H.
  destruct (index_file fs) as [old|] eqn:E;
    [|rewrite (rebuild_no_index _ _ _ _ _ E) in H; discriminate].
  rewrite (rebuild_unfold _ _ _ _ _ _ E) in H.
  destruct (has_malformed (entries fs)); [discriminate|].
  destruct wi, wm; try discriminate.
  injection H as <-. eexists. split; [reflexivity|]. apply crlf_no_bare_lf.
Qed.

Lemma index_crlf_witness :
  exists b, index_file Scenarios.repo_rebuilt = Some b
            /\ no_bare_lf b = true.
Proof.
  apply (index_crlf Scenarios.tostring_tags Scenarios.digest_len Written Written Scenarios.repo_ok).
  vm_compute. reflexivity.
Defined.

End IndexExtras.

(* ================================================================== *)
(** ** Further properties of the changelog *)

Module ChangelogFacts.
Import Py Text Observe ChangelogClaims.

Lemma cons_head_nonnil c r : cons_head c r <> [].
Proof. destruct r; discriminate. Qed.

Lemma split_blank_nonnil s : split_blank s <> [].
Proof.
  destruct s as [|c r]; [discriminate|].
  change (split_blank (c :: r)) with
    (if Ascii.eqb c nl then
       match r with
       | c2 :: rest2 =>
           if Ascii.eqb c2 nl then [] :: split_blank rest2 else cons_head c (split_blank r)
       | [] => cons_head c (split_blank r)
       end
     else cons_head c (split_blank r)).
  destruct (Ascii.eqb c nl); [|apply cons_head_nonnil].
  destruct r as [|c2 r2]; [apply cons_head_nonnil|].
  destruct (Ascii.eqb c2 nl); [discriminate | apply cons_head_nonnil].
Qed.

Lemma join_cons_head sep c ps : ps <> [] -> join sep (cons_head c ps) = c :: join sep ps.
Proof. intros H. destruct ps as [|p [|q qs]]; [congruence | reflexivity | reflexivity]. Qed.

Lemma replace_blank_step c c2 r :
  Ascii.eqb c nl && Ascii.eqb c2 nl = false ->
  replace_blank (c :: c2 :: r) = c :: replace_blank (c2 :: r).
Proof.
  intros H. change (replace_blank (c :: c2 :: r)) with
    (if Ascii.eqb c nl && Ascii.eqb c2 nl
     then nl :: "-"%char :: " "%char :: replace_blank r
     else c :: replace_blank (c2 :: r)).
  now rewrite H.
Qed.

(** Splitting at blank lines and joining with a newline and ["- "] is
    replacing each blank line by a newline and ["- "]. *)
Lemma join_split_blank s :
  join [nl; "-"%char; " "%char] (split_blank s) = replace_blank s.
Proof.
  remember (length s) as n eqn:Hn. revert s Hn.
  induction n as [n IH] using lt_wf_ind. intros s Hn.
  destruct s as [|c r]; [reflexivity|].
  destruct r as [|c2 r2].
  - simpl. destruct (Ascii.eqb c nl); reflexivity.
  - destruct (Ascii.eqb c nl && Ascii.eqb c2 nl) eqn:E.
    + apply andb_prop in E as [E1 E2].
      apply Ascii.eqb_eq in E1, E2. subst c c2.
      change (split_blank (nl :: nl :: r2)) with ([] :: split_blank r2).
      change (replace_blank (nl :: nl :: r2)) with (nl :: "-"%char :: " "%char :: replace_blank r2).
      pose proof (split_blank_nonnil r2) as Hne.
      destruct (split_blank r2) as [|p ps] eqn:Es; [congruence|].
      change (join [nl; "-"%char; " "%char] ([] :: p :: ps))
        with ([nl; "-"%char; " "%char] ++ join [nl; "-"%char; " "%char] (p :: ps)).
      rewrite <- Es. rewrite (IH (length r2)); [reflexivity | simpl in Hn; lia | reflexivity].
    + rewrite split_blank_step by exact E. rewrite replace_blank_step by exact E.
      rewrite join_cons_head by apply split_blank_nonnil.
      rewrite (IH (length (c2 :: r2))); [reflexivity | simpl in *; lia | reflexivity].
Qed.

Lemma forallb_space_lstrip s : forallb isspace s = true -> lstrip s = [].
Proof.
  induction s as [|c s IH]; [reflexivity|]. simpl. intros H.
  apply andb_prop in H as [H1 H2]. rewrite H1. exact (IH H2).
Qed.

Lemma forallb_space_strip s : forallb isspace s = true -> strip s = [].
Proof.
  intros H. unfold strip, rstrip.
  rewrite (forallb_space_lstrip (rev s)); [reflexivity|].
  rewrite forallb_forall in *. intros x Hx. apply H. apply in_rev. exact Hx.
Qed.

End ChangelogFacts.

Module ChangelogExtras.
Import Py Text Release Observe ChangelogFacts.

(** The changelog is ["- "] followed by the stripped log output in which
    every blank line ["\n\n"] is replaced by a newline and ["- "]: no text
    of the log is dropped. *)
Theorem changelog_replace (output : string) :
  changelog output
  = string_of_list_ascii (["-"%char; " "%char] ++ replace_blank (strip (list_ascii_of_string output))).
Proof. unfold changelog. now rewrite join_split_blank. Qed.

(** When the log prints only whitespace (no commit in the range), the
    changelog is the bare ["- "]. *)
Theorem changelog_empty_log (output : string) :
  forallb isspace (list_ascii_of_string output) = true -> changelog output = "- ".
Proof.
  intros H. unfold changelog. rewrite (forallb_space_strip _ H). reflexivity.
Qed.

Lemma changelog_empty_log_witness :
  forallb isspace (list_ascii_of_string (String nl EmptyString)) = true
  /\ changelog (String nl EmptyString) = "- ".
Proof. split; [reflexivity | apply changelog_empty_log; reflexivity]. Defined.

End ChangelogExtras.

(* ================================================================== *)
(** ** Pre-release targets *)

Module PrereleaseFacts.
Import Py PyFacts Release VersionFacts ReleaseFacts Observe.

Lemma span_digits_app d r :
  digits d -> match r with x :: _ => is_digit x = false | [] => True end ->
  StrictVersion.span_digits (d ++ r) = (d, r).
Proof.
  intros Hd Hr. induction Hd as [|x d Hx _ IH]; simpl.
  - destruct r as [|y r]; [reflexivity|]. simpl. now rewrite Hr.
  - rewrite Hx, IH. reflexivity.
Qed.

Lemma nat_str_cons n : exists x xs, nat_str n = x :: xs.
Proof.
  unfold nat_str. pose proof (to_uint_nonnil n) as H.
  destruct (Nat.to_uint n); [congruence| ..]; simpl; eexists; eexists; reflexivity.
Qed.

Lemma int_digits_stop d c r acc b :
  digits d -> is_digit c = false -> Ascii.eqb c "_" = false ->
  int_digits acc b (d ++ c :: r) = None.
Proof.
  intros Hd Hc Hu. revert acc b. induction Hd as [|x d Hx _ IH]; intros acc b; simpl.
  - rewrite Hc, Hu. reflexivity.
  - rewrite Hx. apply IH.
Qed.

Lemma digits_no_dot d : digits d -> Forall (fun c => Ascii.eqb c "."%char = false) d.
Proof.
  intros H. eapply Forall_impl; [|exact H]. intros x Hx.
  apply is_digit_neq; [exact Hx | reflexivity].
Qed.

Lemma digits_no_space d : digits d -> Forall (fun c => isspace c = false) d.
Proof.
  intros H. eapply Forall_impl; [|exact H]. apply is_digit_not_space.
Qed.

(** [M.mAk] with [A] one of [a], [b]: what [StrictVersion] reads of it,
    followed by [rest]. *)
Lemma parse_prerelease d1 d2 d4 c rest :
  d1 <> [] -> d2 <> [] -> d4 <> [] -> digits d1 -> digits d2 -> digits d4 ->
  (c = "a"%char \/ c = "b"%char) ->
  match rest with x :: _ => is_digit x = false | [] => True end ->
  StrictVersion.parse (string_of_list_ascii (d1 ++ "."%char :: d2 ++ c :: d4 ++ rest))
  = if StrictVersion.at_end rest then
      Some (StrictVersion.mk (StrictVersion.digits_value d1, StrictVersion.digits_value d2, 0%Z)
                             (Some (c, StrictVersion.digits_value d4)))
    else None.
Proof.
  intros N1 N2 N4 D1 D2 D4 Hc Hr.
  assert (Hcd : is_digit c = false) by (destruct Hc as [-> | ->]; reflexivity).
  unfold StrictVersion.parse. rewrite list_ascii_of_string_of_list_ascii.
  rewrite (span_digits_app d1) by (assumption || reflexivity).
  destruct d1 as [|x1 d1']; [congruence|]. cbv beta iota zeta.
  rewrite Ascii.eqb_refl.
  rewrite (span_digits_app d2) by assumption.
  destruct d2 as [|x2 d2']; [congruence|]. cbv beta iota zeta.
  unfold StrictVersion.opt_patch.
  replace (Ascii.eqb c ".") with false by (destruct Hc as [-> | ->]; reflexivity).
  cbv beta iota zeta. unfold StrictVersion.opt_pre.
  replace (Ascii.eqb c "a" || Ascii.eqb c "b") with true by (destruct Hc as [-> | ->]; reflexivity).
  rewrite (span_digits_app d4) by assumption.
  destruct d4 as [|x4 d4']; [congruence|]. cbv beta iota zeta.
  reflexivity.
Qed.

End PrereleaseFacts.

Module PrereleaseExtras.
Import Py PyFacts Monad Release VersionFacts ReleaseFacts Observe PrereleaseFacts.

(** An explicit pre-release target [M.mAk] ([A] is [a] or [b]) is a valid
    [StrictVersion], so it can pass the check of line 143; it has two
    dot-separated parts, so it is written as [M.mAk.0]. That written version
    is not a [StrictVersion], and its middle part is not an integer: with it
    as the baseline, every later version decision, automatic or explicit,
    raises [InvalidVersion]. *)
Theorem prerelease_target_unusable (M m k : nat) (c : ascii) (tv : string) (st : State) :
  c = "a"%char \/ c = "b"%char ->
  let t := string_of_list_ascii (nat_str M ++ "."%char :: nat_str m ++ c :: nat_str k) in
  (exists a, StrictVersion.parse t = Some a /\ StrictVersion.prerelease a <> None)
  /\ pad_version t = Some (t ++ ".0")%string
  /\ decide_version tv (t ++ ".0")%string st = Err InvalidVersion st.
Proof.
  intros Hc t.
  assert (Hcd : is_digit c = false) by (destruct Hc as [-> | ->]; reflexivity).
  assert (Hcdot : Ascii.eqb c "." = false) by (destruct Hc as [-> | ->]; reflexivity).
  pose proof (nat_str_digits M) as DM. pose proof (nat_str_digits m) as Dm.
  pose proof (nat_str_digits k) as Dk.
  assert (NM : nat_str M <> []) by (destruct (nat_str_cons M) as (? & ? & ->); discriminate).
  assert (Nm : nat_str m <> []) by (destruct (nat_str_cons m) as (? & ? & ->); discriminate).
  assert (Nk : nat_str k <> []) by (destruct (nat_str_cons k) as (? & ? & ->); discriminate).
  assert (Hmid : Forall (fun x => Ascii.eqb x "."%char = false) (nat_str m ++ c :: nat_str k)).
  { apply Forall_app. split; [apply digits_no_dot; exact Dm|].
    constructor; [exact Hcdot | apply digits_no_dot; exact Dk]. }
  assert (Ht0 : list_ascii_of_string (t ++ ".0")
                = nat_str M ++ "."%char :: nat_str m ++ c :: nat_str k ++ ["."%char; "0"%char]).
  { unfold t. rewrite list_ascii_of_string_app, list_ascii_of_string_of_list_ascii.
    simpl. repeat (rewrite <- app_assoc || rewrite <- app_comm_cons). reflexivity. }
  assert (Hparse0 : StrictVersion.parse (t ++ ".0") = None).
  { rewrite <- (string_of_list_ascii_of_string (t ++ ".0")), Ht0.
    rewrite parse_prerelease by (assumption || reflexivity). reflexivity. }
  split; [|split].
  - eexists. split.
    + unfold t. rewrite <- (app_nil_r (nat_str k)).
      rewrite parse_prerelease by (rewrite ?app_nil_r; (assumption || exact I)).
      reflexivity.
    + discriminate.
  - assert (Hp : dot_parts t = 2%nat).
    { unfold dot_parts, t. rewrite list_ascii_of_string_of_list_ascii.
      rewrite split_char_app by (apply digits_no_dot; exact DM).
      rewrite split_char_nosep by exact Hmid. reflexivity. }
    unfold pad_version. rewrite Hp. reflexivity.
  - unfold decide_version, Monad.bind.
    destruct (is_auto tv).
    + unfold auto_bump. rewrite Ht0.
      rewrite split_char_app by (apply digits_no_dot; exact DM).
      replace (nat_str m ++ c :: nat_str k ++ ["."%char; "0"%char])
        with ((nat_str m ++ c :: nat_str k) ++ "."%char :: ["0"%char])
        by (rewrite <- app_assoc; reflexivity).
      rewrite split_char_app by exact Hmid.
      cbn [split_char Ascii.eqb].
      assert (Hint : int (nat_str m ++ c :: nat_str k) = None).
      { unfold int. rewrite strip_nonspace.
        2:{ apply Forall_app. split; [apply digits_no_space; exact Dm|].
            constructor; [destruct Hc as [-> | ->]; reflexivity | apply digits_no_space; exact Dk]. }
        destruct (nat_str_cons m) as (x & xs & Ex). rewrite Ex. simpl app.
        inversion Dm as [|? ? Hx Hxs]; [congruence|]. rewrite Ex in Dm.
        inversion Dm as [|? ? Hx' Hxs']; subst.
        rewrite (is_digit_neq x "-") by (assumption || reflexivity).
        rewrite (is_digit_neq x "+") by (assumption || reflexivity).
        change (x :: xs ++ c :: nat_str k) with ((x :: xs) ++ c :: nat_str k).
        apply int_digits_stop; [constructor; assumption | exact Hcd |].
        destruct Hc as [-> | ->]; reflexivity. }
      rewrite Hint. reflexivity.
    + destruct (StrictVersion.parse tv); [|reflexivity].
      rewrite Hparse0. reflexivity.
Qed.

Lemma prerelease_target_unusable_witness :
  let t := string_of_list_ascii (nat_str 1 ++ "."%char :: nat_str 6 ++ "a"%char :: nat_str 1) in
  (exists a, StrictVersion.parse t = Some a /\ StrictVersion.prerelease a <> None)
  /\ pad_version t = Some (t ++ ".0")%string
  /\ decide_version "AUTO" (t ++ ".0")%string Scenarios.st_clean
     = Err InvalidVersion Scenarios.st_clean.
Proof. apply prerelease_target_unusable. left. reflexivity. Defined.

End PrereleaseExtras.

(* ================================================================== *)
(** ** What [int()] accepts in the middle part of the baseline *)

Module BumpFacts.
Import Py PyFacts Text Observe PrereleaseFacts.

Definition int_step (acc : Z) (c : ascii) : Z := (acc * 10 + digit_val c)%Z.

Lemma lstrip_spaces w x : Forall (fun c => isspace c = true) w -> lstrip (w ++ x) = lstrip x.
Proof. induction 1 as [|c w Hc _ IH]; simpl; [reflexivity | now rewrite Hc]. Qed.

Lemma space_no_dot c : isspace c = true -> Ascii.eqb c "."%char = false.
Proof.
  intros H. destruct (Ascii.eqb_spec c "."%char) as [->|]; [discriminate | reflexivity].
Qed.

Lemma int_digits_run g r acc :
  digits g -> int_digits acc true (g ++ r) = int_digits (fold_left int_step g acc) true r.
Proof.
  intros Hg. revert acc. induction Hg as [|c g Hc _ IH]; intros acc; simpl; [reflexivity|].
  rewrite Hc. apply IH.
Qed.

Lemma int_digits_group g r acc :
  g <> [] -> digits g ->
  int_digits acc false (g ++ r) = int_digits (fold_left int_step g acc) true r.
Proof.
  intros Hne Hg. destruct Hg as [|c g Hc Hg]; [congruence|].
  simpl. rewrite Hc. apply int_digits_run; exact Hg.
Qed.

(** Digit groups joined by single underscores are read as the digits of all
    the groups. *)
Lemma int_digits_groups gs acc :
  gs <> [] -> Forall (fun g => g <> [] /\ digits g) gs ->
  int_digits acc false (join ["_"%char] gs) = Some (fold_left int_step (concat gs) acc).
Proof.
  revert acc. induction gs as [|g gs IH]; intros acc Hne Hall; [congruence|].
  inversion Hall as [|? ? [Hg Dg] Hgs]; subst.
  destruct gs as [|h hs].
  - simpl. rewrite <- (app_nil_r g) at 1. rewrite int_digits_group by assumption.
    rewrite app_nil_r. reflexivity.
  - change (join ["_"%char] (g :: h :: hs)) with (g ++ "_"%char :: join ["_"%char] (h :: hs)).
    rewrite int_digits_group by assumption. simpl int_digits at 1.
    rewrite IH by (discriminate || assumption).
    change (concat (g :: h :: hs)) with (g ++ concat (h :: hs)).
    rewrite fold_left_app. reflexivity.
Qed.

Lemma join_groups_first gs :
  gs <> [] -> Forall (fun g => g <> [] /\ digits g) gs ->
  exists d t, join ["_"%char] gs = d :: t /\ is_digit d = true.
Proof.
  intros Hne Hall. destruct gs as [|g gs]; [congruence|].
  inversion Hall as [|? ? [Hg Dg] _]; subst.
  destruct Dg as [|d t Hd _]; [congruence|].
  destruct gs; simpl; eexists; eexists; split; [reflexivity | exact Hd | reflexivity | exact Hd].
Qed.

Lemma join_groups_last gs :
  gs <> [] -> Forall (fun g => g <> [] /\ digits g) gs ->
  exists d t, rev (join ["_"%char] gs) = d :: t /\ is_digit d = true.
Proof.
  induction gs as [|g gs IH]; intros Hne Hall; [congruence|].
  inversion Hall as [|? ? [Hg Dg] Hgs]; subst.
  destruct gs as [|h hs].
  - simpl. destruct (rev g) as [|d t] eqn:E.
    + apply (f_equal (@rev ascii)) in E. rewrite rev_involutive in E. simpl in E. congruence.
    + exists d, t. split; [reflexivity|].
      apply Forall_rev in Dg. rewrite E in Dg. now inversion Dg.
  - change (join ["_"%char] (g :: h :: hs)) with (g ++ ["_"%char] ++ join ["_"%char] (h :: hs)).
    destruct (IH ltac:(discriminate) Hgs) as (d & t & Ht & Hd).
    rewrite !rev_app_distr, Ht. exists d. eexists. split; [reflexivity | exact Hd].
Qed.

Lemma join_groups_no_dot gs :
  Forall (fun g => g <> [] /\ digits g) gs ->
  Forall (fun c => Ascii.eqb c "."%char = false) (join ["_"%char] gs).
Proof.
  induction 1 as [|g gs [_ Dg] _ IH]; [constructor|].
  destruct gs as [|h hs]; [apply digits_no_dot; exact Dg|].
  change (join ["_"%char] (g :: h :: hs)) with (g ++ ["_"%char] ++ join ["_"%char] (h :: hs)).
  apply Forall_app; split; [apply digits_no_dot; exact Dg|].
  apply Forall_app; split; [repeat constructor | exact IH].
Qed.

(** [int()] of an optional sign and underscore-joined digit groups, with
    whitespace around them. *)
Lemma int_forms w1 sgn gs w2 sg :
  Forall (fun c => isspace c = true) w1 -> Forall (fun c => isspace c = true) w2 ->
  (sgn = [] /\ sg = 1%Z) \/ (sgn = ["+"%char] /\ sg = 1%Z) \/ (sgn = ["-"%char] /\ sg = (-1)%Z) ->
  gs <> [] -> Forall (fun g => g <> [] /\ digits g) gs ->
  int (w1 ++ sgn ++ join ["_"%char] gs ++ w2)
  = Some (sg * StrictVersion.digits_value (concat gs))%Z.
Proof.
  intros W1 W2 Hs Hne Hall.
  destruct (join_groups_first gs Hne Hall) as (d & t & Hj & Hd).
  destruct (join_groups_last gs Hne Hall) as (e & u & Hl & He).
  assert (Hstrip : strip (w1 ++ sgn ++ join ["_"%char] gs ++ w2) = sgn ++ join ["_"%char] gs).
  { unfold strip, rstrip.
    replace (w1 ++ sgn ++ join ["_"%char] gs ++ w2)
      with ((w1 ++ sgn ++ join ["_"%char] gs) ++ w2) by (now rewrite <- !app_assoc).
    rewrite rev_app_distr, lstrip_spaces by (apply Forall_rev; exact W2).
    assert (Hr : rev (w1 ++ sgn ++ join ["_"%char] gs) = e :: u ++ rev (w1 ++ sgn)).
    { rewrite app_assoc, rev_app_distr, Hl. reflexivity. }
    rewrite Hr. simpl lstrip. rewrite (is_digit_not_space e He).
    rewrite <- Hr, rev_involutive.
    rewrite lstrip_spaces by exact W1.
    destruct Hs as [[-> _] | [[-> _] | [-> _]]]; simpl; rewrite ?Hj; simpl;
      rewrite ?(is_digit_not_space d Hd); reflexivity. }
  unfold int. rewrite Hstrip.
  pose proof (int_digits_groups gs 0%Z Hne Hall) as Hg.
  unfold StrictVersion.digits_value. fold int_step.
  assert (Hm1 : forall x, (-1 * x = - x)%Z) by (intros; lia).
  destruct Hs as [[-> ->] | [[-> ->] | [-> ->]]]; rewrite ?Z.mul_1_l, ?Hm1.
  - simpl app. rewrite Hj.
    rewrite (is_digit_neq d "-"), (is_digit_neq d "+") by (reflexivity || assumption).
    rewrite <- Hj, Hg. reflexivity.
  - simpl. rewrite Hg. reflexivity.
  - simpl. rewrite Hg. reflexivity.
Qed.

End BumpFacts.

Module BumpExtras.
Import Py PyFacts Text Observe Release PrereleaseFacts BumpFacts.

(** X8. The automatic bump splits the baseline at its dots: the first part
    is copied as text, and the third is dropped without being checked. The
    second is read with [int()], so it may have surrounding whitespace, a
    [+] or [-] sign, and underscores between its digit groups: its value is
    the signed value of all its digits, and the bumped middle part is that
    value plus one. *)
Theorem auto_bump_int_forms (major patch w1 sgn w2 : list ascii) (gs : list (list ascii)) (sg : Z) :
  Forall (fun c => Ascii.eqb c "."%char = false) major ->
  Forall (fun c => Ascii.eqb c "."%char = false) patch ->
  Forall (fun c => isspace c = true) w1 -> Forall (fun c => isspace c = true) w2 ->
  (sgn = [] /\ sg = 1%Z) \/ (sgn = ["+"%char] /\ sg = 1%Z) \/ (sgn = ["-"%char] /\ sg = (-1)%Z) ->
  gs <> [] -> Forall (fun g => g <> [] /\ digits g) gs ->
  auto_bump (string_of_list_ascii
               (major ++ "."%char :: (w1 ++ sgn ++ join ["_"%char] gs ++ w2) ++ "."%char :: patch))
  = Some (string_of_list_ascii
            (major ++ "."%char
             :: z_str (sg * StrictVersion.digits_value (concat gs) + 1) ++ ["."%char; "0"%char])).
Proof.
  intros HM HP W1 W2 Hs Hne Hall.
  assert (Hmid : Forall (fun c => Ascii.eqb c "."%char = false) (w1 ++ sgn ++ join ["_"%char] gs ++ w2)).
  { assert (Hsp : forall w, Forall (fun c => isspace c = true) w ->
                            Forall (fun c => Ascii.eqb c "."%char = false) w).
    { intros w Hw. eapply Forall_impl; [|exact Hw]. exact space_no_dot. }
    apply Forall_app; split; [exact (Hsp _ W1)|].
    apply Forall_app; split; [destruct Hs as [[-> _] | [[-> _] | [-> _]]]; repeat constructor|].
    apply Forall_app; split; [exact (join_groups_no_dot gs Hall) | exact (Hsp _ W2)]. }
  unfold auto_bump. rewrite list_ascii_of_string_of_list_ascii.
  rewrite split_char_app by assumption. rewrite split_char_app by assumption.
  rewrite split_char_nosep by assumption.
  rewrite (int_forms w1 sgn gs w2 sg) by assumption. reflexivity.
Qed.

(** [v1. -1_4 .rc1]: the middle part [ -1_4 ] is read as [-14]. *)
Lemma auto_bump_int_forms_witness :
  auto_bump (string_of_list_ascii
               (list_ascii_of_string "v1" ++ "."%char
                :: ([" "%char] ++ ["-"%char] ++ join ["_"%char] [["1"%char]; ["4"%char]] ++ [" "%char])
                ++ "."%char :: list_ascii_of_string "rc1"))
  = Some (string_of_list_ascii
            (list_ascii_of_string "v1" ++ "."%char
             :: z_str ((-1) * StrictVersion.digits_value (concat [["1"%char]; ["4"%char]]) + 1)
             ++ ["."%char; "0"%char])).
Proof.
  apply auto_bump_int_forms;
    [repeat constructor .. | right; right; split; reflexivity | discriminate
    | repeat constructor; discriminate].
Defined.

End BumpExtras.
